(** * Land-only outlines: the geometry pipelines of [sample.py] and
      [show_land_outline.py]

    Both scripts fetch an administrative boundary, gather auxiliary polygons
    (water bodies in [sample.py], a land mask in [show_land_outline.py]) and
    combine them with the boundary through the shapely geometry library.

    The geometry library is not part of the repository: it is an interface
    ([Shapely]) whose operations the embedding calls exactly where the Python
    code calls them.  Python exceptions are values of [exn]; a computation
    that may raise has type [result A]; [main], which also prints, lives in
    the writer-over-result monad [M].  The answers of the Overpass service
    are taken with points that carry both [lon] and [lat]. *)

From Stdlib Require Import QArith Ascii String ZArith Bool Arith Lia List.
Import ListNotations.

Set Implicit Arguments.
Close Scope Q_scope.

(** ** Exceptions and results *)

Inductive exn : Type :=
| KeyError (key : string)
| IndexError
| AttributeError (attr : string)
| ValueError
| RuntimeError (message : string)
| GEOSException
| FileNotFoundError (path : string).

Inductive result (A : Type) : Type :=
| Ok (a : A)
| Raise (e : exn).

Arguments Ok {A} a.
Arguments Raise {A} e.

Definition bind {A B : Type} (r : result A) (k : A -> result B) : result B :=
  match r with
  | Ok a => k a
  | Raise e => Raise e
  end.

Declare Scope result_scope.
Delimit Scope result_scope with result.
Notation "x <- r ;; k" := (bind r (fun x => k))
  (at level 100, r at next level, right associativity) : result_scope.
Open Scope result_scope.

(** ** Numbers, coordinates and the raw JSON of the Overpass service *)

(** Longitudes and latitudes are JSON numbers; the scripts only compare them
    for equality ([coords[0] != coords[-1]]). *)
Class Num : Type := {
  num : Type;
  num_eq_dec : forall a b : num, {a = b} + {a <> b}
}.

Section Raw.
Context {N : Num}.

(** The tuple [(p["lon"], p["lat"])]. *)
Definition coord : Type := (num * num)%type.

Definition coord_eq_dec (a b : coord) : {a = b} + {a <> b}.
Proof. decide equality; apply num_eq_dec. Defined.

(** A point object [{"lon": .., "lat": ..}].  The scripts index both keys
    without a guard; the answers modelled here are those whose points carry
    both. *)
Record point : Type := { lon : num; lat : num }.

Definition coord_of (p : point) : coord := (lon p, lat p).

(** A relation member: [m["type"]], [m["geometry"]]; a key may be absent. *)
Record member : Type := {
  m_type : option string;
  m_geometry : option (list point)
}.

(** An element of the response: [el["type"]], [el["members"]],
    [el["geometry"]]; a key may be absent. *)
Record element : Type := {
  el_type : option string;
  el_members : option (list member);
  el_geometry : option (list point)
}.

(** The decoded response [data]; [data["elements"]] may be absent. *)
Record response : Type := { elements : option (list element) }.

(** [d.get(key) == s] on an optional string field. *)
Definition get_eqb (field : option string) (s : string) : bool :=
  match field with
  | Some t => String.eqb t s
  | None => false
  end.

(** [key in d]. *)
Definition has {A : Type} (field : option A) : bool :=
  match field with
  | Some _ => true
  | None => false
  end.

(** [d[key]]: raises [KeyError] when the key is absent. *)
Definition index {A : Type} (key : string) (field : option A) : result A :=
  match field with
  | Some a => Ok a
  | None => Raise (KeyError key)
  end.

(** The element has a type, and it is not [relation]. *)
Definition typed_other (el : element) : Prop :=
  exists t, el_type el = Some t /\ String.eqb t "relation" = false.

(** ** Closing a ring

    [if coords[0] != coords[-1]: coords.append(coords[0])]; indexing an
    empty list raises [IndexError]. *)
Definition close_ring (coords : list coord) : result (list coord) :=
  match coords with
  | [] => Raise IndexError
  | c0 :: _ =>
      if coord_eq_dec c0 (last coords c0) then Ok coords
      else Ok (coords ++ [c0])
  end.

(** The ring builder of [sample.py] lines 44-50 and of
    [show_land_outline.py] lines 73-75: sequences of fewer than four
    coordinates are given up ([None]), the others are closed. *)
Definition build_ring (coords : list coord) : result (option (list coord)) :=
  if length coords <? 4 then Ok None
  else ring <- close_ring coords ;; Ok (Some ring).

(** *** The ring builder as the specification words it

    [dedup_consecutive] drops every coordinate equal to its successor;
    [spec_insufficient_points] says that fewer than three distinct
    coordinates remain afterwards. *)
Fixpoint dedup_consecutive (coords : list coord) : list coord :=
  match coords with
  | [] => []
  | a :: rest =>
      match rest with
      | [] => [a]
      | b :: _ =>
          if coord_eq_dec a b then dedup_consecutive rest
          else a :: dedup_consecutive rest
      end
  end.

Definition spec_insufficient_points (coords : list coord) : bool :=
  length (nodup coord_eq_dec (dedup_consecutive coords)) <? 3.

Definition closed_ring (ring : list coord) : Prop :=
  exists c0 rest, ring = c0 :: rest /\ last ring c0 = c0.
End Raw.

(** ** The geometry library *)

Class Shapely {N : Num} : Type := {
  geom : Type;
  (** [shapely.geometry.Polygon(coords)] *)
  Polygon : list coord -> result geom;
  (** [g.is_valid], [g.is_empty] *)
  is_valid : geom -> bool;
  is_empty : geom -> bool;
  (** [g.buffer(0)] *)
  buffer0 : geom -> result geom;
  (** [a.difference(b)], [a.intersection(b)] *)
  difference : geom -> geom -> result geom;
  intersection : geom -> geom -> result geom;
  (** [shapely.ops.unary_union(geoms)] *)
  unary_union : list geom -> result geom;
  (** [g.bounds] as [(minx, miny, maxx, maxy)] *)
  bounds : geom -> num * num * num * num;
  (** [shapely.geometry.box(minx, miny, maxx, maxy)] *)
  box : num -> num -> num -> num -> geom;
  (** [a.intersects(b)] *)
  intersects : geom -> geom -> bool;
  (** one row of [GeoDataFrame.to_crs(epsg=4326)], from the named system *)
  to_crs_4326 : string -> geom -> geom;
  (** [g.area] *)
  area : geom -> Q;
  (** [show_land_outline.py] lines 157-181 for a place name and the two
      layers: the folium map is built and [m.save(out_html)] writes it;
      whatever folium or the file system raises is raised here *)
  save_map : string -> geom -> geom -> result unit
}.

Section Common.
Context {N : Num} {S : Shapely}.

(** Truth value of a geometry in a condition ([if land_union:]): a
    geometry is true when it is not empty. *)
Definition truthy (g : geom) : bool := negb (is_empty g).

(** Truth value of a variable that holds a geometry or [None]. *)
Definition truthy_opt (g : option geom) : bool :=
  match g with
  | Some g' => truthy g'
  | None => false
  end.

(** [if not g.is_valid: g = g.buffer(0)] ([sample.py] 69-72,
    [show_land_outline.py] 111-112 and 153-154). *)
Definition repair (g : geom) : result geom :=
  if is_valid g then Ok g else buffer0 g.

(** The guarded construction shared by the three ingestion sites:
<<
    try:
        poly = Polygon(coords)
        if poly.is_valid and not poly.is_empty:
            polys.append(poly)
    except Exception:
        continue
>>
    [None] stands for the [continue] of the handler, [Some l] for the
    polygons appended before control falls out of the [try]. *)
Definition ingest_polygon (coords : list coord) : option (list geom) :=
  match Polygon coords with
  | Ok poly =>
      Some (if is_valid poly && negb (is_empty poly) then [poly] else [])
  | Raise _ => None
  end.

(** What the ingestion sites require of a polygon they append: it is the
    polygon the constructor returned for some ring, valid and not empty. *)
Definition admitted (p : geom) : Prop :=
  is_valid p = true /\ is_empty p = false
  /\ exists ring, Polygon ring = Ok p.

(** The polygons a loop body appends for one item (none if it raises). *)
Definition appended {A : Type} (body : A -> result (list geom)) (x : A)
  : list geom :=
  match body x with
  | Ok polys => polys
  | Raise _ => []
  end.

(** *** The recovery of the union as the specification words it

    "Iterate candidates, union one-at-a-time into an accumulator, skipping
    any candidate whose individual union attempt fails." *)
Fixpoint spec_sequential_union (acc : option geom) (candidates : list geom)
  : option geom :=
  match candidates with
  | [] => acc
  | g :: rest =>
      let attempt := match acc with
                     | None => unary_union [g]
                     | Some a => unary_union [a; g]
                     end in
      match attempt with
      | Ok u => spec_sequential_union (Some u) rest
      | Raise _ => spec_sequential_union acc rest
      end
  end.

(** A [for] loop whose body appends polygons to one list. *)
Fixpoint collect {A : Type} (body : A -> result (list geom)) (xs : list A)
  : result (list geom) :=
  match xs with
  | [] => Ok []
  | x :: rest =>
      here <- body x ;;
      later <- collect body rest ;;
      Ok (here ++ later)
  end.
End Common.

(** ** [sample.py]: subtract water from the boundary *)

Module Sample.
Section WithLibrary.
Context {N : Num} {S : Shapely}.

(** Line 19: the coordinates of every [way] member, in order. *)
Fixpoint member_coords (members : list member) : result (list coord) :=
  match members with
  | [] => Ok []
  | m :: rest =>
      t <- index "type" (m_type m) ;;
      if String.eqb t "way" then
        g <- index "geometry" (m_geometry m) ;;
        more <- member_coords rest ;;
        Ok (map coord_of g ++ more)
      else member_coords rest
  end.

(** Lines 17-21: the polygon of the first relation, or [None]. *)
Fixpoint first_relation (els : list element) : result (option geom) :=
  match els with
  | [] => Ok None
  | el :: rest =>
      t <- index "type" (el_type el) ;;
      if String.eqb t "relation" then
        members <- index "members" (el_members el) ;;
        coords <- member_coords members ;;
        poly <- Polygon coords ;;
        Ok (Some poly)
      else first_relation rest
  end.

(** [fetch_place_boundary]; [data] is the decoded answer of the service to
    the query for the place. *)
Definition fetch_place_boundary (data : response) : result (option geom) :=
  els <- index "elements" (elements data) ;;
  first_relation els.

(** Lines 41-58: the body of the loop over the water elements. *)
Definition water_element (el : element) : result (list geom) :=
  match el_geometry el with
  | None => Ok []
  | Some g =>
      ring <- build_ring (map coord_of g) ;;
      match ring with
      | None => Ok []
      | Some coords =>
          match ingest_polygon coords with
          | Some polys => Ok polys
          | None => Ok []
          end
      end
  end.

(** Line 60. *)
Definition union_or_none (water_polys : list geom) : result (option geom) :=
  match water_polys with
  | [] => Ok None
  | _ :: _ => u <- unary_union water_polys ;; Ok (Some u)
  end.

(** [fetch_water]; [service] answers the query built from the bounds of
    the boundary.  [boundary.bounds] on [None] raises. *)
Definition fetch_water (service : num * num * num * num -> response)
    (boundary : option geom) : result (option geom) :=
  match boundary with
  | None => Raise (AttributeError "bounds")
  | Some b =>
      els <- index "elements" (elements (service (bounds b))) ;;
      water_polys <- collect water_element els ;;
      union_or_none water_polys
  end.

(** Lines 67-75: the difference, taken only when both values are true. *)
Definition difference_step (boundary water : option geom)
  : result (option geom) :=
  match boundary, water with
  | Some b, Some w =>
      if truthy b && truthy w then
        b' <- repair b ;;
        w' <- repair w ;;
        land <- difference b' w' ;;
        Ok (Some land)
      else Ok boundary
  | _, _ => Ok boundary
  end.

Definition land_only_boundary (data : response)
    (service : num * num * num * num -> response) : result (option geom) :=
  boundary <- fetch_place_boundary data ;;
  water <- fetch_water service boundary ;;
  difference_step boundary water.
End WithLibrary.
End Sample.

(** ** [show_land_outline.py]: clamp the boundary to a land mask *)

(** What [main] prints, one constructor per [print] statement. *)
Inductive msg : Type :=
| MsgLoading                     (* "Loading land polygons shapefile ..." *)
| MsgNoCRS                       (* "Warning: input shapefile has no CRS. ..." *)
| MsgReprojecting (crs : string) (* "Reprojecting land polygons from ... to EPSG:4326..." *)
| MsgFetching (place : string)   (* "Fetching administrative boundary for ..." *)
| MsgFiltering                   (* "Filtering land polygons by bounding box ..." *)
| MsgNoLand                      (* "No land polygons found in the boundary bbox. ..." *)
| MsgIntersecting                (* "Intersecting land polygons with the administrative boundary ..." *)
| MsgFallback (e : exn)          (* "Union/intersection failed, falling back to per-feature intersection:" e *)
| MsgSaved.                      (* "Map saved to" out_html *)

(** A computation that prints and may raise: what was printed, and how it
    ended. *)
Definition M (A : Type) : Type := (list msg * result A)%type.

Definition mret {A : Type} (a : A) : M A := ([], Ok a).

Definition mbind {A B : Type} (m : M A) (k : A -> M B) : M B :=
  match m with
  | (out, Ok a) => let (out', r) := k a in (out ++ out', r)
  | (out, Raise e) => (out, Raise e)
  end.

Definition print (m : msg) : M unit := ([m], Ok tt).

Definition lift {A : Type} (r : result A) : M A := ([], r).

(** [try: body except Exception as e: handler]. *)
Definition try_except {A : Type} (body : M A) (handler : exn -> M A) : M A :=
  match body with
  | (out, Ok a) => (out, Ok a)
  | (out, Raise e) => let (out', r) := handler e in (out ++ out', r)
  end.

Declare Scope m_scope.
Delimit Scope m_scope with M.
Notation "x <~ m ;; k" := (mbind m (fun x => k))
  (at level 100, m at next level, right associativity) : m_scope.
Notation "m ;;; k" := (mbind m (fun _ => k))
  (at level 100, right associativity) : m_scope.

Module ShowLandOutline.
Section WithLibrary.
Context {N : Num} {S : Shapely}.

(** Lines 54-59: the coordinates of the members that are ways and carry a
    geometry. *)
Fixpoint way_coords (members : list member) : list coord :=
  match members with
  | [] => []
  | m :: rest =>
      if get_eqb (m_type m) "way" then
        match m_geometry m with
        | Some g => map coord_of g ++ way_coords rest
        | None => way_coords rest
        end
      else way_coords rest
  end.

(** Lines 52-69, the extraction from the member ways.  [None]: the handler
    ran [continue]; [Some l]: control reaches line 70 with [l] appended. *)
Definition from_members (el : element) : result (option (list geom)) :=
  if get_eqb (el_type el) "relation" then
    match el_members el with
    | Some members =>
        match way_coords members with
        | [] => Ok (Some [])
        | coords =>
            ring <- close_ring coords ;;
            Ok (ingest_polygon ring)
        end
    | None => Ok (Some [])
    end
  else Ok (Some []).

(** Lines 71-81, the extraction from the geometry of the element itself. *)
Definition from_geometry (el : element) : result (option (list geom)) :=
  if get_eqb (el_type el) "relation" then
    match el_geometry el with
    | Some g =>
        ring <- build_ring (map coord_of g) ;;
        match ring with
        | Some coords => Ok (ingest_polygon coords)
        | None => Ok (Some [])
        end
    | None => Ok (Some [])
    end
  else Ok (Some []).

(** Lines 49-81: the body of the loop, the polygons one element appends.
    Both [if] statements run in turn unless the first one ends in
    [continue]. *)
Definition element_geoms (el : element) : result (list geom) :=
  first <- from_members el ;;
  match first with
  | None => Ok []
  | Some g1 =>
      second <- from_geometry el ;;
      match second with
      | None => Ok g1
      | Some g2 => Ok (g1 ++ g2)
      end
  end.

Definition no_relation_message (place_name : string) : string :=
  ("No relation geometry found for '" ++ place_name
     ++ "'. Try a more specific name.")%string.

(** Lines 83-88. *)
Definition union_geoms (place_name : string) (geoms : list geom)
  : result geom :=
  match geoms with
  | [] => Raise (RuntimeError (no_relation_message place_name))
  | [g] => Ok g
  | _ => unary_union geoms
  end.

(** [fetch_place_boundary]; [data.get("elements", [])]. *)
Definition fetch_place_boundary (place_name : string) (data : response)
  : result geom :=
  let els := match elements data with Some l => l | None => [] end in
  geoms <- collect element_geoms els ;;
  union_geoms place_name geoms.

(** The land polygons as [geopandas.read_file] returns them. *)
Record GeoDataFrame : Type := {
  crs : option string;
  geometry : list geom
}.

(** Lines 100-105. *)
Definition to_wgs84 (land_gdf : GeoDataFrame) : M GeoDataFrame :=
  match crs land_gdf with
  | None =>
      (print MsgNoCRS ;;;
       mret {| crs := Some "EPSG:4326"%string; geometry := geometry land_gdf |})%M
  | Some c =>
      if negb (String.eqb c "EPSG:4326") then
        (print (MsgReprojecting c) ;;;
         mret {| crs := Some "EPSG:4326"%string;
                 geometry := map (to_crs_4326 c) (geometry land_gdf) |})%M
      else mret land_gdf
  end.

(** Lines 118-123: the rows that intersect the rectangle of the bounds of
    the boundary. *)
Definition bbox_poly (boundary_geom : geom) : geom :=
  let '(minx, miny, maxx, maxy) := bounds boundary_geom in
  box minx miny maxx maxy.

Definition prefilter (boundary_geom : geom) (land : list geom) : list geom :=
  filter (fun g => intersects g (bbox_poly boundary_geom)) land.

(** Lines 124-127. *)
Definition land_subset_of (boundary_geom : geom) (land : list geom)
  : M (list geom) :=
  let land_subset := prefilter boundary_geom land in
  match land_subset with
  | [] => (print MsgNoLand ;;; mret [])%M
  | _ => mret land_subset
  end.

(** Lines 135-139, the body of the [try]. *)
Definition intersection_step (boundary_geom : geom) (land_subset : list geom)
  : result geom :=
  land_union <- (if 0 <? length land_subset
                 then u <- unary_union land_subset ;; Ok (Some u)
                 else Ok None) ;;
  match land_union with
  | Some u =>
      if truthy u then intersection boundary_geom u else Ok boundary_geom
  | None => Ok boundary_geom
  end.

(** Lines 143-149: the intersections of the single rows with the boundary
    that neither raise nor are empty. *)
Fixpoint per_feature (boundary_geom : geom) (land_subset : list geom)
  : list geom :=
  match land_subset with
  | [] => []
  | g :: rest =>
      match intersection g boundary_geom with
      | Ok inter =>
          if negb (is_empty inter)
          then inter :: per_feature boundary_geom rest
          else per_feature boundary_geom rest
      | Raise _ => per_feature boundary_geom rest
      end
  end.

(** Lines 141-150, the handler. *)
Definition fallback (boundary_geom : geom) (land_subset : list geom)
    (e : exn) : M geom :=
  (print (MsgFallback e) ;;;
   let parts := per_feature boundary_geom land_subset in
   match parts with
   | [] => mret boundary_geom
   | _ => lift (unary_union parts)
   end)%M.

(** Lines 133-150. *)
Definition clamp_stage (boundary_geom : geom) (land_subset : list geom)
  : M geom :=
  try_except (lift (intersection_step boundary_geom land_subset))
             (fallback boundary_geom land_subset).

(** [main]; it ends with the two layers of the saved map, the boundary and
    the clamped geometry.  [land_gdf] is what [read_file] returned, [data]
    the answer of the boundary service. *)
Definition main (place_name : string) (land_gdf : GeoDataFrame)
    (data : response) : M (geom * geom) :=
  (print MsgLoading ;;;
   land_gdf <~ to_wgs84 land_gdf ;;
   print (MsgFetching place_name) ;;;
   fetched <~ lift (fetch_place_boundary place_name data) ;;
   boundary_geom <~ lift (repair fetched) ;;
   print MsgFiltering ;;;
   land_subset <~ land_subset_of boundary_geom (geometry land_gdf) ;;
   print MsgIntersecting ;;;
   clamped_geom <~ clamp_stage boundary_geom land_subset ;;
   clamped_geom <~ lift (repair clamped_geom) ;;
   lift (save_map place_name boundary_geom clamped_geom) ;;;
   print MsgSaved ;;;
   mret (boundary_geom, clamped_geom))%M.

(** What lines 100-105 print, and the frame they leave. *)
Definition crs_messages (land_gdf : GeoDataFrame) : list msg :=
  fst (to_wgs84 land_gdf).

Definition reprojected (land_gdf : GeoDataFrame) : GeoDataFrame :=
  match snd (to_wgs84 land_gdf) with
  | Ok g => g
  | Raise _ => land_gdf
  end.

(** What lines 124-125 print for a given filtered subset. *)
Definition no_land_messages (land_subset : list geom) : list msg :=
  match land_subset with
  | [] => [MsgNoLand]
  | _ => []
  end.

End WithLibrary.
End ShowLandOutline.

(** ** The script around [main]

    [show_land_outline.py] lines 23-28 read the command line, lines 179-180
    name the file the map is saved to. *)

(** How the start of the script ends: with the usage line and
    [sys.exit(1)], or with [PLACE_NAME] and [LAND_SHP_PATH]. *)
Inductive startup : Type :=
| UsageExit (status : nat)
| Started (PLACE_NAME LAND_SHP_PATH : string).

(** Lines 23-28; [argv] is [sys.argv], the name of the script first. *)
Definition read_argv (argv : list string) : startup :=
  if length argv <? 3 then UsageExit 1
  else Started (nth 1 argv EmptyString) (nth 2 argv EmptyString).

(** [str.lower()] on one character of an ASCII name: the letters [A]-[Z]
    move to [a]-[z].  (On other alphabets Python lowercases as well; names
    are taken to be ASCII wherever this is used.) *)
Definition lower_char (c : ascii) : ascii :=
  let n := nat_of_ascii c in
  if (65 <=? n) && (n <=? 90) then ascii_of_nat (n + 32) else c.

(** [.replace(" ", "_")] on one character. *)
Definition replace_space (c : ascii) : ascii :=
  if Ascii.eqb c " " then "_"%char else c.

Fixpoint map_chars (f : ascii -> ascii) (s : string) : string :=
  match s with
  | EmptyString => EmptyString
  | String c rest => String (f c) (map_chars f rest)
  end.

(** Line 179: [place_name.lower().replace(" ", "_")]. *)
Definition safe_name (place_name : string) : string :=
  map_chars replace_space (map_chars lower_char place_name).

(** Line 180: [f"land_clamped_{safe_name}.html"]. *)
Definition out_html (place_name : string) : string :=
  ("land_clamped_" ++ safe_name place_name ++ ".html")%string.

(** Every character of the name is an ASCII character. *)
Fixpoint ascii_name (s : string) : bool :=
  match s with
  | EmptyString => true
  | String c rest => (nat_of_ascii c <? 128) && ascii_name rest
  end.

(** The character is one of [A]-[Z]. *)
Definition is_upper (c : ascii) : bool :=
  (65 <=? nat_of_ascii c) && (nat_of_ascii c <=? 90).

(** ** A grid model of the geometry library

    Used to run the pipelines on concrete data.  Coordinates are integers; a
    geometry is a finite set of unit cells of the integer grid, each named
    by its lower-left corner, or a degenerate ring that spans no area.
    [Polygon] reads a ring as the axis-parallel rectangle it spans, which is
    exact for the rectangular rings the examples use; a ring that spans no
    area gives a polygon that is neither valid nor empty and whose
    zero-width buffer is empty.  A bow-tie is a ring that crosses itself
    between two lobes run through in opposite senses, such as
    [(0,0) (1,0) (1,2) (2,2) (2,1) (0,1) (0,0)], whose lobes are the cells
    at [(0,0)] and [(1,1)]: it is neither valid nor empty, its signed lobe
    areas cancel in [area], its zero-width buffer keeps the lobe run
    through counter-clockwise, and union, difference and intersection
    raise on it.  Two regions meet when they share a cell:
    contact along an edge or at a corner is not represented, and the
    examples keep their geometries either overlapping or apart. *)

Module Grid.
Definition ZNum : Num := {| num := Z; num_eq_dec := Z.eq_dec |}.
#[local] Existing Instance ZNum.

Definition cell : Type := (Z * Z)%type.

Inductive shape : Type :=
| Region (cells : list cell)
| Degenerate (ring : list cell)
| Bowtie (kept dropped : list cell).

Definition cell_eqb (a b : cell) : bool :=
  (fst a =? fst b)%Z && (snd a =? snd b)%Z.

Definition mem (c : cell) (cells : list cell) : bool :=
  existsb (cell_eqb c) cells.

Fixpoint dedup (cells : list cell) : list cell :=
  match cells with
  | [] => []
  | c :: rest => if mem c rest then dedup rest else c :: dedup rest
  end.

Definition zrange (lo hi : Z) : list Z :=
  map (fun i => (lo + Z.of_nat i)%Z) (seq 0 (Z.to_nat (hi - lo))).

Definition rect_cells (minx miny maxx maxy : Z) : list cell :=
  flat_map (fun x => map (fun y => (x, y)) (zrange miny maxy))
           (zrange minx maxx).

Definition minimum (zs : list Z) : Z :=
  match zs with
  | [] => 0%Z
  | z :: rest => fold_left Z.min rest z
  end.

Definition maximum (zs : list Z) : Z :=
  match zs with
  | [] => 0%Z
  | z :: rest => fold_left Z.max rest z
  end.

Definition span (pts : list cell) : Z * Z * Z * Z :=
  (minimum (map fst pts), minimum (map snd pts),
   maximum (map fst pts), maximum (map snd pts)).

Definition grid_Polygon (ring : list coord) : result shape :=
  match ring with
  | [] => Ok (Region [])
  | _ =>
      if length ring <? 3 then Raise ValueError
      else
        let '(minx, miny, maxx, maxy) := span ring in
        if (minx =? maxx)%Z || (miny =? maxy)%Z then Ok (Degenerate ring)
        else Ok (Region (rect_cells minx miny maxx maxy))
  end.

Definition grid_is_valid (g : shape) : bool :=
  match g with
  | Region _ => true
  | Degenerate _ => false
  | Bowtie _ _ => false
  end.

Definition grid_is_empty (g : shape) : bool :=
  match g with
  | Region [] => true
  | _ => false
  end.

Definition grid_buffer0 (g : shape) : result shape :=
  match g with
  | Region cells => Ok (Region cells)
  | Degenerate _ => Ok (Region [])
  | Bowtie kept _ => Ok (Region kept)
  end.

Definition grid_difference (a b : shape) : result shape :=
  match a, b with
  | Region ca, Region cb => Ok (Region (filter (fun c => negb (mem c cb)) ca))
  | _, _ => Raise GEOSException
  end.

Definition grid_intersection (a b : shape) : result shape :=
  match a, b with
  | Region ca, Region cb => Ok (Region (filter (fun c => mem c cb) ca))
  | _, _ => Raise GEOSException
  end.

Fixpoint all_cells (gs : list shape) : result (list cell) :=
  match gs with
  | [] => Ok []
  | Region cells :: rest => more <- all_cells rest ;; Ok (cells ++ more)
  | Degenerate _ :: rest => all_cells rest
  | Bowtie _ _ :: _ => Raise GEOSException
  end.

Definition grid_unary_union (gs : list shape) : result shape :=
  cells <- all_cells gs ;; Ok (Region (dedup cells)).

Definition grid_bounds (g : shape) : Z * Z * Z * Z :=
  match g with
  | Region [] => (0, 0, 0, 0)%Z
  | Region cells =>
      let '(minx, miny, maxx, maxy) := span cells in
      (minx, miny, maxx + 1, maxy + 1)%Z
  | Degenerate ring => span ring
  | Bowtie kept dropped =>
      let '(minx, miny, maxx, maxy) := span (kept ++ dropped) in
      (minx, miny, maxx + 1, maxy + 1)%Z
  end.

Definition grid_box (minx miny maxx maxy : Z) : shape :=
  Region (rect_cells minx miny maxx maxy).

(** The points or cells a shape is tested with in [intersects]. *)
Definition footprint (g : shape) : list cell :=
  match g with
  | Region cells => cells
  | Degenerate ring => ring
  | Bowtie kept dropped => kept ++ dropped
  end.

(** A degenerate ring meets a region when one of its points is the corner
    of one of the cells of the region; a bow-tie meets it when one of its
    lobes does. *)
Definition grid_intersects (a b : shape) : bool :=
  match a, b with
  | Region ca, Region cb => existsb (fun c => mem c cb) ca
  | Region cells, other
  | other, Region cells => existsb (fun c => mem c cells) (footprint other)
  | _, _ => false
  end.

(** The area in cells; the signed areas of the lobes of a bow-tie are
    subtracted. *)
Definition grid_area (g : shape) : Q :=
  match g with
  | Region cells => inject_Z (Z.of_nat (length cells))
  | Degenerate _ => 0%Q
  | Bowtie kept dropped =>
      inject_Z (Z.abs (Z.of_nat (length kept) - Z.of_nat (length dropped)))
  end.

Fixpoint has_slash (s : string) : bool :=
  match s with
  | EmptyString => false
  | String c rest => Ascii.eqb c "/" || has_slash rest
  end.

(** Saving succeeds unless the file name holds a [/], which makes it a path
    into a directory that is not there. *)
Definition grid_save_map (place_name : string) (boundary_geom clamped_geom : shape)
  : result unit :=
  if has_slash (out_html place_name)
  then Raise (FileNotFoundError (out_html place_name))
  else Ok tt.

Definition lib : Shapely := {|
  geom := shape;
  Polygon := grid_Polygon;
  is_valid := grid_is_valid;
  is_empty := grid_is_empty;
  buffer0 := grid_buffer0;
  difference := grid_difference;
  intersection := grid_intersection;
  unary_union := grid_unary_union;
  bounds := grid_bounds;
  box := grid_box;
  intersects := grid_intersects;
  to_crs_4326 := fun _ g => g;
  area := grid_area;
  save_map := grid_save_map
|}.

(** The two-standard-boxes test of the specification's prefilter: closed
    boxes [(minx, miny, maxx, maxy)] share a point. *)
Definition bbox_intersects (a b : Z * Z * Z * Z) : bool :=
  let '(aminx, aminy, amaxx, amaxy) := a in
  let '(bminx, bminy, bmaxx, bmaxy) := b in
  (aminx <=? bmaxx)%Z && (bminx <=? amaxx)%Z
  && (aminy <=? bmaxy)%Z && (bminy <=? amaxy)%Z.

(** *** Sample data *)

Definition pt (x y : Z) : point := {| lon := x; lat := y |}.

(** The closed ring of the rectangle from [(x0, y0)] to [(x1, y1)]. *)
Definition rect_ring (x0 y0 x1 y1 : Z) : list point :=
  [pt x0 y0; pt x1 y0; pt x1 y1; pt x0 y1; pt x0 y0].

Definition way (g : list point) : element :=
  {| el_type := Some "way"%string; el_members := None; el_geometry := Some g |}.

Definition relation_of_ways (rings : list (list point)) : element :=
  {| el_type := Some "relation"%string;
     el_members := Some (map (fun g => {| m_type := Some "way"%string;
                                          m_geometry := Some g |}) rings);
     el_geometry := None |}.

Definition answer (els : list element) : response :=
  {| elements := Some els |}.

Definition unit_square : list point := rect_ring 0 0 1 1.

(** A ring along a line: it spans no area. *)
Definition collinear : list point := [pt 0 0; pt 1 0; pt 2 0; pt 0 0].

(** An L-shaped region: three cells along each axis from the origin. *)
Definition ell : shape :=
  Region [(0, 0); (1, 0); (2, 0); (0, 1); (0, 2)]%Z.

(** A relation that carries one ring under its member way and one on the
    element itself. *)
Definition relation_with_both (members_ring own_ring : list point)
  : element :=
  {| el_type := Some "relation"%string;
     el_members := Some [{| m_type := Some "way"%string;
                            m_geometry := Some members_ring |}];
     el_geometry := Some own_ring |}.

(** The bow-tie of the ring [(x,y) (x+1,y) (x+1,y+2) (x+2,y+2) (x+2,y+1)
    (x,y+1) (x,y)]. *)
Definition bowtie_at (x y : Z) : shape :=
  Bowtie [(x, y)] [(x + 1, y + 1)%Z].

(** A land frame already in EPSG:4326. *)
Definition frame (S : Shapely) (rows : list (@geom _ S))
  : @ShowLandOutline.GeoDataFrame _ S :=
  {| ShowLandOutline.crs := Some "EPSG:4326"%string;
     ShowLandOutline.geometry := rows |}.
End Grid.

(** * Properties *)

(** ** Rings *)

Section RingFacts.
Context {N : Num}.

Lemma last_app_singleton (l : list coord) (c d : coord) :
  last (l ++ [c]) d = c.
Proof. apply last_last. Qed.

Lemma close_ring_cons (c0 : coord) (rest : list coord) :
  exists ring,
    close_ring (c0 :: rest) = Ok ring
    /\ closed_ring ring
    /\ ((last (c0 :: rest) c0 = c0 /\ ring = c0 :: rest)
        \/ (last (c0 :: rest) c0 <> c0 /\ ring = (c0 :: rest) ++ [c0])).
Proof.
  unfold close_ring.
  destruct (coord_eq_dec c0 (last (c0 :: rest) c0)) as [Heq | Hne].
  - exists (c0 :: rest). split; [reflexivity | split].
    + exists c0, rest. split; [reflexivity | symmetry; exact Heq].
    + left. split; [symmetry; exact Heq | reflexivity].
  - exists ((c0 :: rest) ++ [c0]). split; [reflexivity | split].
    + exists c0, (rest ++ [c0]). split; [reflexivity | ].
      apply last_app_singleton.
    + right. split; [congruence | reflexivity].
Qed.

Lemma close_ring_length (coords ring : list coord) :
  close_ring coords = Ok ring -> length coords <= length ring.
Proof.
  destruct coords as [| c0 rest]; [discriminate | ].
  unfold close_ring.
  destruct (coord_eq_dec c0 (last (c0 :: rest) c0)); intros H;
    inversion H; subst; [lia | ].
  simpl. rewrite ?length_app. simpl. lia.
Qed.

Lemma closed_ring_iff (c0 : coord) (rest : list coord) :
  closed_ring (c0 :: rest) <-> last (c0 :: rest) c0 = c0.
Proof.
  split.
  - intros (c & r & Heq & Hlast). inversion Heq; subst. exact Hlast.
  - intros H. exists c0, rest. split; [reflexivity | exact H].
Qed.

Lemma build_ring_short (coords : list coord) :
  length coords < 4 -> build_ring coords = Ok None.
Proof.
  intros H. unfold build_ring.
  destruct (Nat.ltb_spec (length coords) 4); [reflexivity | lia].
Qed.

Lemma build_ring_long (coords : list coord) :
  4 <= length coords ->
  exists ring,
    build_ring coords = Ok (Some ring)
    /\ close_ring coords = Ok ring
    /\ closed_ring ring /\ 4 <= length ring.
Proof.
  intros H. unfold build_ring.
  destruct (Nat.ltb_spec (length coords) 4); [lia | ].
  destruct coords as [| c0 rest]; [simpl in H; lia | ].
  destruct (close_ring_cons c0 rest) as (ring & Hc & Hclosed & _).
  exists ring. rewrite Hc. simpl.
  repeat split; try assumption.
  apply close_ring_length in Hc. lia.
Qed.

Lemma build_ring_total (coords : list coord) :
  exists r, build_ring coords = Ok r.
Proof.
  destruct (Nat.lt_ge_cases (length coords) 4) as [Hshort | Hlong].
  - exists None. apply build_ring_short. exact Hshort.
  - destruct (build_ring_long coords Hlong) as (ring & Hb & _).
    exists (Some ring). exact Hb.
Qed.
End RingFacts.

(** C3, as amended.  The ring builder of [sample.py] lines 44-50 and
    [show_land_outline.py] lines 73-75 never raises; it gives a sequence up
    exactly when the raw sequence has fewer than four coordinates (nothing is
    deduplicated); every ring it produces is closed, has at least four
    points, and is the input itself when that was closed and the input with
    its first coordinate appended otherwise. *)
Theorem build_ring_contract {N : Num} (coords : list coord) :
  (exists r, build_ring coords = Ok r)
  /\ (build_ring coords = Ok None <-> length coords < 4)
  /\ (forall ring, build_ring coords = Ok (Some ring) ->
        closed_ring ring /\ 4 <= length ring
        /\ ((closed_ring coords /\ ring = coords)
            \/ (~ closed_ring coords
                /\ exists c0, hd_error coords = Some c0
                              /\ ring = coords ++ [c0]))).
Proof.
  destruct (Nat.lt_ge_cases (length coords) 4) as [Hshort | Hlong].
  - pose proof (build_ring_short coords Hshort) as Hb.
    split; [eexists; exact Hb | split].
    + split; [intros _; exact Hshort | intros _; exact Hb].
    + intros ring Hr. rewrite Hb in Hr. discriminate.
  - destruct (build_ring_long coords Hlong) as (ring & Hb & Hc & Hclosed & Hlen).
    split; [eexists; exact Hb | split].
    + split; [intros H; rewrite Hb in H; discriminate | lia].
    + intros ring' Hr. rewrite Hb in Hr. inversion Hr; subst ring'.
      split; [exact Hclosed | split; [exact Hlen | ]].
      destruct coords as [| c0 rest]; [simpl in Hlong; lia | ].
      destruct (close_ring_cons c0 rest) as (ring2 & Hc2 & _ & Hcase).
      rewrite Hc in Hc2. inversion Hc2; subst ring2.
      destruct Hcase as [[Hlast Heq] | [Hlast Heq]].
      * left. split; [apply closed_ring_iff; exact Hlast | exact Heq].
      * right. split.
        -- intros Habs. apply closed_ring_iff in Habs. contradiction.
        -- exists c0. split; [reflexivity | exact Heq].
Qed.

(** C3, the claim as stated fails: an open triangle keeps three distinct
    coordinates after deduplication and is given up all the same, and four
    copies of one coordinate keep a single distinct coordinate and are
    accepted as a ring. *)
Lemma build_ring_ignores_distinct_count :
  let triangle : list (@coord Grid.ZNum) := [(0, 0); (1, 0); (0, 1)]%Z in
  let dot : list (@coord Grid.ZNum) := [(0, 0); (0, 0); (0, 0); (0, 0)]%Z in
  spec_insufficient_points triangle = false
  /\ build_ring triangle = Ok None
  /\ spec_insufficient_points dot = true
  /\ build_ring dot = Ok (Some dot).
Proof. repeat split. Qed.

(** ** Validity repair *)

(** C5, as amended.  A valid geometry is returned unchanged; an invalid one
    is replaced by its zero-width buffer, and that buffer is the result as
    it comes: it is not looked at again, so the repair raises only if the
    buffer call itself raises. *)
Theorem repair_contract {N : Num} {S : Shapely} (p : geom) :
  (is_valid p = true /\ repair p = Ok p)
  \/ (is_valid p = false /\ repair p = buffer0 p).
Proof.
  unfold repair. destruct (is_valid p); [left | right]; split; reflexivity.
Qed.

(** C5, the claim as stated fails: the polygon of a ring along a line is
    invalid, its zero-width buffer is empty, and the repair returns that
    empty geometry instead of failing. *)
Lemma repair_returns_empty_buffer :
  let p := Grid.Degenerate [(0, 0); (1, 0); (2, 0); (0, 0)]%Z in
  Polygon (Shapely := Grid.lib) (map coord_of Grid.collinear) = Ok p
  /\ is_valid (Shapely := Grid.lib) p = false
  /\ buffer0 (Shapely := Grid.lib) p = Ok (Grid.Region [])
  /\ is_empty (Shapely := Grid.lib) (Grid.Region []) = true
  /\ repair (S := Grid.lib) p = Ok (Grid.Region []).
Proof. repeat split. Qed.

(** ** Spatial prefilter *)

(** C7, as amended.  The prefilter keeps the rows of the land frame, in
    order, whose geometry intersects the rectangle of the bounds of the
    boundary: the test is the exact one between the row and that rectangle,
    and the bounding box of the row plays no part. *)
Theorem prefilter_exact {N : Num} {S : Shapely}
    (boundary_geom : geom) (land : list geom) :
  ShowLandOutline.prefilter boundary_geom land
  = filter (fun g => intersects g (ShowLandOutline.bbox_poly boundary_geom)) land
  /\ (forall g,
        In g (ShowLandOutline.prefilter boundary_geom land)
        <-> In g land
            /\ intersects g (ShowLandOutline.bbox_poly boundary_geom) = true)
  /\ snd (ShowLandOutline.land_subset_of boundary_geom land)
     = Ok (ShowLandOutline.prefilter boundary_geom land).
Proof.
  split; [reflexivity | split].
  - intros g. unfold ShowLandOutline.prefilter. rewrite filter_In. tauto.
  - unfold ShowLandOutline.land_subset_of.
    destruct (ShowLandOutline.prefilter boundary_geom land); reflexivity.
Qed.

(** C7, the claim as stated fails: the bounding box of the L-shaped region
    meets the box of a boundary that sits in the notch of the L, yet the
    region itself does not meet that box and the prefilter drops it. *)
Lemma prefilter_drops_overlapping_bbox :
  let boundary_geom := Grid.Region [(2, 2)%Z] in
  Polygon (Shapely := Grid.lib) (map coord_of (Grid.rect_ring 2 2 3 3))
  = Ok boundary_geom
  /\ bounds (Shapely := Grid.lib) Grid.ell = (0, 0, 3, 3)%Z
  /\ bounds (Shapely := Grid.lib) boundary_geom = (2, 2, 3, 3)%Z
  /\ Grid.bbox_intersects (0, 0, 3, 3)%Z (2, 2, 3, 3)%Z = true
  /\ ShowLandOutline.prefilter (S := Grid.lib) boundary_geom [Grid.ell] = [].
Proof. repeat split. Qed.

(** ** Ingestion of candidate polygons *)

Section IngestionFacts.
Context {N : Num} {S : Shapely}.

Lemma ingest_polygon_admitted (coords : list coord) (polys : list geom) :
  ingest_polygon coords = Some polys -> Forall admitted polys.
Proof.
  unfold ingest_polygon.
  destruct (Polygon coords) as [poly | e] eqn:Hp; [ | discriminate].
  destruct (is_valid poly && negb (is_empty poly)) eqn:Hok;
    intros H; inversion H; subst; constructor; [ | constructor].
  apply andb_true_iff in Hok. destruct Hok as [Hv He].
  apply negb_true_iff in He.
  repeat split; try assumption. exists coords. exact Hp.
Qed.

Lemma ingest_polygon_skips (coords : list coord) :
  (forall p, Polygon coords = Ok p ->
             is_valid p = false \/ is_empty p = true) ->
  ingest_polygon coords = None \/ ingest_polygon coords = Some [].
Proof.
  intros H. unfold ingest_polygon.
  destruct (Polygon coords) as [poly | e]; [right | left; reflexivity].
  destruct (H poly eq_refl) as [Hv | He]; rewrite ?Hv, ?He;
    rewrite ?andb_false_r; reflexivity.
Qed.

Lemma water_element_total (el : element) :
  exists polys,
    Sample.water_element el = Ok polys /\ Forall admitted polys.
Proof.
  unfold Sample.water_element.
  destruct (el_geometry el) as [g | ]; [ | exists []; split; constructor].
  destruct (build_ring_total (map coord_of g)) as (r & Hr). rewrite Hr.
  simpl. destruct r as [ring | ]; [ | exists []; split; constructor].
  destruct (ingest_polygon ring) as [polys | ] eqn:Hi.
  - exists polys. split; [reflexivity | ].
    apply (ingest_polygon_admitted _ Hi).
  - exists []. split; constructor.
Qed.

Lemma from_members_total (el : element) :
  ShowLandOutline.from_members el = Ok None
  \/ exists polys,
       ShowLandOutline.from_members el = Ok (Some polys)
       /\ Forall admitted polys.
Proof.
  unfold ShowLandOutline.from_members.
  destruct (get_eqb (el_type el) "relation");
    [ | right; exists []; split; constructor].
  destruct (el_members el) as [members | ];
    [ | right; exists []; split; constructor].
  destruct (ShowLandOutline.way_coords members) as [| c0 rest];
    [right; exists []; split; constructor | ].
  destruct (close_ring_cons c0 rest) as (ring & Hc & _). rewrite Hc. simpl.
  destruct (ingest_polygon ring) as [polys | ] eqn:Hi; [right | left; reflexivity].
  exists polys. split; [reflexivity | apply (ingest_polygon_admitted _ Hi)].
Qed.

Lemma from_geometry_total (el : element) :
  ShowLandOutline.from_geometry el = Ok None
  \/ exists polys,
       ShowLandOutline.from_geometry el = Ok (Some polys)
       /\ Forall admitted polys.
Proof.
  unfold ShowLandOutline.from_geometry.
  destruct (get_eqb (el_type el) "relation");
    [ | right; exists []; split; constructor].
  destruct (el_geometry el) as [g | ];
    [ | right; exists []; split; constructor].
  destruct (build_ring_total (map coord_of g)) as (r & Hr). rewrite Hr.
  simpl. destruct r as [ring | ]; [ | right; exists []; split; constructor].
  destruct (ingest_polygon ring) as [polys | ] eqn:Hi; [right | left; reflexivity].
  exists polys. split; [reflexivity | apply (ingest_polygon_admitted _ Hi)].
Qed.

Lemma element_geoms_total (el : element) :
  exists polys,
    ShowLandOutline.element_geoms el = Ok polys /\ Forall admitted polys.
Proof.
  unfold ShowLandOutline.element_geoms.
  destruct (from_members_total el) as [H1 | (g1 & H1 & A1)]; rewrite H1; simpl.
  - exists []. split; constructor.
  - destruct (from_geometry_total el) as [H2 | (g2 & H2 & A2)];
      rewrite H2; simpl.
    + exists g1. split; [reflexivity | exact A1].
    + exists (g1 ++ g2). split; [reflexivity | ].
      apply Forall_app. split; assumption.
Qed.

Lemma collect_flat_map {A : Type} (body : A -> result (list geom))
    (xs : list A) :
  (forall x, exists polys, body x = Ok polys) ->
  collect body xs = Ok (flat_map (appended body) xs).
Proof.
  intros Htotal. induction xs as [| x rest IH]; [reflexivity | ].
  simpl. unfold appended at 1.
  destruct (Htotal x) as (polys & Hx). rewrite Hx, IH. reflexivity.
Qed.
End IngestionFacts.

(** ** The stages of [main] *)

Section MainFacts.
Context {N : Num} {S : Shapely}.

Lemma to_wgs84_run (land_gdf : ShowLandOutline.GeoDataFrame) :
  ShowLandOutline.to_wgs84 land_gdf
  = (ShowLandOutline.crs_messages land_gdf,
     Ok (ShowLandOutline.reprojected land_gdf)).
Proof.
  unfold ShowLandOutline.crs_messages, ShowLandOutline.reprojected,
    ShowLandOutline.to_wgs84.
  destruct (ShowLandOutline.crs land_gdf) as [c | ]; [ | reflexivity].
  destruct (negb (String.eqb c "EPSG:4326")); reflexivity.
Qed.

Lemma land_subset_of_run (boundary_geom : geom) (land : list geom) :
  ShowLandOutline.land_subset_of boundary_geom land
  = (ShowLandOutline.no_land_messages (ShowLandOutline.prefilter boundary_geom land),
     Ok (ShowLandOutline.prefilter boundary_geom land)).
Proof.
  unfold ShowLandOutline.land_subset_of.
  destruct (ShowLandOutline.prefilter boundary_geom land); reflexivity.
Qed.

(** [main] stage by stage: what has been printed and how the run ends,
    according to the outcome of each stage. *)
Lemma main_stages (place_name : string)
    (land_gdf : ShowLandOutline.GeoDataFrame) (data : response) :
  ShowLandOutline.main place_name land_gdf data
  = let out0 := MsgLoading :: ShowLandOutline.crs_messages land_gdf
                  ++ [MsgFetching place_name] in
    match ShowLandOutline.fetch_place_boundary place_name data with
    | Raise e => (out0, Raise e)
    | Ok fetched =>
        match repair fetched with
        | Raise e => (out0, Raise e)
        | Ok boundary_geom =>
            let land_subset :=
              ShowLandOutline.prefilter boundary_geom
                (ShowLandOutline.geometry
                   (ShowLandOutline.reprojected land_gdf)) in
            let out1 := out0 ++ MsgFiltering
                          :: ShowLandOutline.no_land_messages land_subset
                          ++ [MsgIntersecting] in
            match ShowLandOutline.clamp_stage boundary_geom land_subset with
            | (out2, Raise e) => (out1 ++ out2, Raise e)
            | (out2, Ok clamped) =>
                match repair clamped with
                | Raise e => (out1 ++ out2, Raise e)
                | Ok final =>
                    match save_map place_name boundary_geom final with
                    | Raise e => (out1 ++ out2, Raise e)
                    | Ok _ =>
                        (out1 ++ out2 ++ [MsgSaved],
                         Ok (boundary_geom, final))
                    end
                end
            end
        end
    end.
Proof.
  unfold ShowLandOutline.main. rewrite to_wgs84_run.
  cbv zeta. unfold mbind at 1 2. unfold print at 1. cbv iota beta.
  destruct (ShowLandOutline.fetch_place_boundary place_name data)
    as [fetched | e]; simpl; [ | reflexivity].
  destruct (repair fetched) as [boundary_geom | e]; simpl; [ | reflexivity].
  rewrite land_subset_of_run. simpl.
  destruct (ShowLandOutline.clamp_stage boundary_geom _)
    as [out2 [clamped | e]]; simpl;
    [destruct (repair clamped) as [final | e]; simpl;
     [destruct (save_map place_name boundary_geom final) as [[] | e]; simpl
     | ]
    | ];
    repeat (rewrite <- app_assoc; simpl); rewrite ?app_nil_r;
    reflexivity.
Qed.
End MainFacts.

(** ** No candidate geometry *)

Section ComposeFacts.
Context {N : Num} {S : Shapely}.

Lemma difference_step_none (boundary : option geom) :
  Sample.difference_step boundary None = Ok boundary.
Proof. destruct boundary; reflexivity. Qed.

Lemma clamp_stage_empty (boundary_geom : geom) :
  ShowLandOutline.clamp_stage boundary_geom [] = ([], Ok boundary_geom).
Proof. reflexivity. Qed.

Lemma repair_valid (g : geom) : is_valid g = true -> repair g = Ok g.
Proof. intros H. unfold repair. rewrite H. reflexivity. Qed.

Lemma per_feature_In (boundary_geom : geom) (land_subset : list geom)
    (p : geom) :
  In p (ShowLandOutline.per_feature boundary_geom land_subset)
  <-> exists g, In g land_subset
                /\ intersection g boundary_geom = Ok p
                /\ is_empty p = false.
Proof.
  induction land_subset as [| g rest IH]; simpl.
  - split; [tauto | intros (g & [] & _)].
  - destruct (intersection g boundary_geom) as [inter | e] eqn:Hi.
    + destruct (is_empty inter) eqn:He; simpl; rewrite IH; split.
      * intros (g' & Hin & H). exists g'. tauto.
      * intros (g' & [Heq | Hin] & Hint & Hne).
        -- subst g'. rewrite Hi in Hint. inversion Hint; subst p.
           congruence.
        -- exists g'. tauto.
      * intros [Heq | (g' & Hin & H)].
        -- subst p. exists g. tauto.
        -- exists g'. tauto.
      * intros (g' & [Heq | Hin] & Hint & Hne).
        -- subst g'. rewrite Hi in Hint. inversion Hint. tauto.
        -- right. exists g'. tauto.
    + rewrite IH. split.
      * intros (g' & Hin & H). exists g'. tauto.
      * intros (g' & [Heq | Hin] & Hint & Hne).
        -- subst g'. rewrite Hi in Hint. discriminate.
        -- exists g'. tauto.
Qed.
End ComposeFacts.

(** C1, as amended.  With no candidate geometry the compose step hands
    the boundary back as it is: in [sample.py] whenever the water is [None],
    so also when no water polygon was collected; in [show_land_outline.py]
    whenever the filtered land subset is empty, where the [try] block neither
    raises nor prints.  A run of [main] whose filtered subset is empty, on a
    boundary that is valid after line 112 and with a map that can be saved,
    ends with the boundary itself as the clamped geometry.  Neither script
    returns a flag: [main] prints the "No land polygons found" message among
    its output and [sample.py] reports nothing. *)
Theorem no_candidate_keeps_boundary {N : Num} {S : Shapely} (B : geom) :
  (forall boundary : option geom,
      Sample.difference_step boundary None = Ok boundary)
  /\ (forall data service els,
        Sample.fetch_place_boundary data = Ok (Some B) ->
        elements (service (bounds B)) = Some els ->
        collect Sample.water_element els = Ok [] ->
        Sample.land_only_boundary data service = Ok (Some B))
  /\ ShowLandOutline.intersection_step B [] = Ok B
  /\ ShowLandOutline.clamp_stage B [] = ([], Ok B)
  /\ (forall place_name land_gdf data fetched,
        ShowLandOutline.fetch_place_boundary place_name data = Ok fetched ->
        repair fetched = Ok B ->
        is_valid B = true ->
        ShowLandOutline.prefilter B
          (ShowLandOutline.geometry (ShowLandOutline.reprojected land_gdf))
        = [] ->
        save_map place_name B B = Ok tt ->
        ShowLandOutline.main place_name land_gdf data
        = (MsgLoading :: ShowLandOutline.crs_messages land_gdf
             ++ [MsgFetching place_name; MsgFiltering; MsgNoLand;
                 MsgIntersecting; MsgSaved],
           Ok (B, B))).
Proof.
  split; [apply difference_step_none | ].
  split; [ | split; [reflexivity | split; [reflexivity | ]]].
  - intros data service els Hb Hels Hnone.
    unfold Sample.land_only_boundary. rewrite Hb. simpl.
    rewrite Hels. simpl. rewrite Hnone. reflexivity.
  - intros place_name land_gdf data fetched Hf Hr Hv Hempty Hsave.
    rewrite main_stages, Hf, Hr. cbv zeta. rewrite Hempty.
    rewrite clamp_stage_empty, (repair_valid _ Hv), Hsave.
    simpl. repeat (rewrite <- app_assoc; simpl). reflexivity.
Qed.

(** C1, as amended, at a run: the unit square as boundary and an empty
    land frame. *)
Lemma no_candidate_keeps_boundary_witness :
  ShowLandOutline.main (S := Grid.lib) "Monaco" (Grid.frame Grid.lib [])
    (Grid.answer [Grid.relation_of_ways [Grid.unit_square]])
  = ([MsgLoading; MsgFetching "Monaco"; MsgFiltering; MsgNoLand;
      MsgIntersecting; MsgSaved],
     Ok (Grid.Region [(0, 0)%Z], Grid.Region [(0, 0)%Z])).
Proof.
  destruct (no_candidate_keeps_boundary (S := Grid.lib)
              (Grid.Region [(0, 0)%Z])) as (_ & _ & _ & _ & H).
  apply (H "Monaco"%string (Grid.frame Grid.lib [])
           (Grid.answer [Grid.relation_of_ways [Grid.unit_square]])
           (Grid.Region [(0, 0)%Z])); reflexivity.
Defined.

(** C1, the claim as stated fails: there is no flag.  The run on an empty
    land frame, which takes the fallback, and the run on a land row that
    covers the boundary, which does not, end with the same value; what
    tells them apart is a line of the output, not anything returned. *)
Lemma fallback_leaves_no_flag :
  let data := Grid.answer [Grid.relation_of_ways [Grid.rect_ring 0 0 2 2]] in
  ShowLandOutline.main (S := Grid.lib) "Monaco" (Grid.frame Grid.lib []) data
  = ([MsgLoading; MsgFetching "Monaco"; MsgFiltering; MsgNoLand;
      MsgIntersecting; MsgSaved],
     Ok (Grid.grid_box 0 0 2 2, Grid.grid_box 0 0 2 2))
  /\ ShowLandOutline.main (S := Grid.lib) "Monaco"
       (Grid.frame Grid.lib [Grid.grid_box 0 0 3 3]) data
     = ([MsgLoading; MsgFetching "Monaco"; MsgFiltering; MsgIntersecting;
         MsgSaved],
        Ok (Grid.grid_box 0 0 2 2, Grid.grid_box 0 0 2 2))
  /\ snd (ShowLandOutline.main (S := Grid.lib) "Monaco"
            (Grid.frame Grid.lib []) data)
     = snd (ShowLandOutline.main (S := Grid.lib) "Monaco"
              (Grid.frame Grid.lib [Grid.grid_box 0 0 3 3]) data).
Proof. repeat split. Qed.

(** ** Where the repair is applied *)




(** ** A failing union *)

(** C6, as amended.  When the batch union of a non-empty subset raises,
    [sample.py] has no handler and the exception leaves [fetch_water];
    [show_land_outline.py] prints the fallback message and intersects each
    row of the subset with the boundary by itself, keeping the
    intersections that neither raise nor are empty, and ends with the
    boundary if none is kept and with one batch union of the kept
    intersections otherwise, whose exception, if any, is not caught. *)
Theorem union_failure_fallback {N : Num} {S : Shapely}
    (boundary_geom : geom) (land_subset : list geom) (e : exn) :
  land_subset <> [] ->
  unary_union land_subset = Raise e ->
  Sample.union_or_none land_subset = Raise e
  /\ ShowLandOutline.clamp_stage boundary_geom land_subset
     = ([MsgFallback e],
        match ShowLandOutline.per_feature boundary_geom land_subset with
        | [] => Ok boundary_geom
        | parts => unary_union parts
        end)
  /\ (forall p,
        In p (ShowLandOutline.per_feature boundary_geom land_subset)
        <-> exists g, In g land_subset
                      /\ intersection g boundary_geom = Ok p
                      /\ is_empty p = false).
Proof.
  intros Hne Hraise. split; [ | split].
  - unfold Sample.union_or_none.
    destruct land_subset; [congruence | ]. rewrite Hraise. reflexivity.
  - unfold ShowLandOutline.clamp_stage, ShowLandOutline.intersection_step.
    destruct land_subset as [| g rest]; [congruence | ].
    change (0 <? length (g :: rest)) with true. cbv iota.
    rewrite Hraise. unfold ShowLandOutline.fallback.
    generalize (ShowLandOutline.per_feature boundary_geom (g :: rest)).
    intros [| part parts]; reflexivity.
  - intros p. apply per_feature_In.
Qed.

(** C6, as amended, at a run: one land row is a bow-tie far from the
    boundary, the batch union raises, and the fallback keeps the
    intersection of the other row with the boundary. *)
Lemma union_failure_fallback_witness :
  ShowLandOutline.clamp_stage (S := Grid.lib) (Grid.grid_box 0 0 2 2)
    [Grid.Region [(0, 0); (5, 5)]%Z; Grid.bowtie_at 7 7]
  = ([MsgFallback GEOSException], Ok (Grid.Region [(0, 0)%Z])).
Proof.
  apply (union_failure_fallback (S := Grid.lib) (Grid.grid_box 0 0 2 2)
           (land_subset := [Grid.Region [(0, 0); (5, 5)]%Z;
                            Grid.bowtie_at 7 7])
           (e := GEOSException)).
  - discriminate.
  - reflexivity.
Defined.

(** C6, the claim as stated fails.  The boundary has two parts; one land
    row is a bow-tie and the other a square, both inside the box of the
    boundary and apart from its parts.  The batch union raises.  Uniting the
    candidates one at a time and skipping the one that fails would leave the
    square, whose intersection with the boundary is empty; the handler of
    the script unites nothing: it keeps no per-feature intersection and ends
    with the whole boundary. *)
Lemma fallback_is_not_sequential_union :
  let data := Grid.answer [Grid.relation_of_ways [Grid.rect_ring 0 0 1 1];
                           Grid.relation_of_ways [Grid.rect_ring 3 3 4 4]] in
  let rows := [Grid.bowtie_at 0 2; Grid.Region [(3, 0)%Z]] in
  let boundary_geom := Grid.Region [(0, 0); (3, 3)]%Z in
  unary_union (Shapely := Grid.lib) rows = Raise GEOSException
  /\ spec_sequential_union (S := Grid.lib) None rows
     = Some (Grid.Region [(3, 0)%Z])
  /\ intersection (Shapely := Grid.lib) boundary_geom (Grid.Region [(3, 0)%Z])
     = Ok (Grid.Region [])
  /\ ShowLandOutline.clamp_stage (S := Grid.lib) boundary_geom rows
     = ([MsgFallback GEOSException], Ok boundary_geom)
  /\ ShowLandOutline.main (S := Grid.lib) "Monaco"
       (Grid.frame Grid.lib rows) data
     = ([MsgLoading; MsgFetching "Monaco"; MsgFiltering; MsgIntersecting;
         MsgFallback GEOSException; MsgSaved],
        Ok (boundary_geom, boundary_geom)).
Proof. repeat split. Qed.

(** ** A boundary that is not found *)

(** C8, as amended.  When the answer of the boundary service yields no
    usable polygon, [fetch_place_boundary] of [show_land_outline.py] raises
    the "No relation geometry found" error and [main] ends there, whatever
    the land frame holds: it has printed the loading, reprojection and
    fetching messages and nothing of the later stages.  In [sample.py]
    [fetch_place_boundary] raises nothing in that case: on an answer without
    a relation it returns [None]. *)
Theorem missing_boundary_stops_main {N : Num} {S : Shapely}
    (place_name : string) (land_gdf : ShowLandOutline.GeoDataFrame)
    (data : response) :
  collect ShowLandOutline.element_geoms
    (match elements data with Some els => els | None => [] end) = Ok [] ->
  ShowLandOutline.main place_name land_gdf data
  = (MsgLoading :: ShowLandOutline.crs_messages land_gdf
       ++ [MsgFetching place_name],
     Raise (RuntimeError (ShowLandOutline.no_relation_message place_name)))
  /\ (forall els : list element,
        Forall (fun el => exists t, el_type el = Some t
                                    /\ String.eqb t "relation" = false) els ->
        Sample.fetch_place_boundary {| elements := Some els |} = Ok None).
Proof.
  intros Hnone. split.
  - rewrite main_stages. unfold ShowLandOutline.fetch_place_boundary.
    rewrite Hnone. reflexivity.
  - intros els Hall. unfold Sample.fetch_place_boundary. simpl.
    induction Hall as [| el rest (t & Ht & Hrel) _ IH]; [reflexivity | ].
    simpl. rewrite Ht. simpl. rewrite Hrel. exact IH.
Qed.

(** C8, as amended, at a run: an answer without elements, a land frame in
    another reference system. *)
Lemma missing_boundary_stops_main_witness :
  ShowLandOutline.main (S := Grid.lib) "Monaco"
    {| ShowLandOutline.crs := Some "EPSG:3857"%string;
       ShowLandOutline.geometry := [Grid.ell : @geom _ Grid.lib] |}
    (Grid.answer [])
  = ([MsgLoading; MsgReprojecting "EPSG:3857"; MsgFetching "Monaco"],
     Raise (RuntimeError
              "No relation geometry found for 'Monaco'. Try a more specific name.")).
Proof.
  apply (missing_boundary_stops_main (S := Grid.lib) "Monaco"
           {| ShowLandOutline.crs := Some "EPSG:3857"%string;
              ShowLandOutline.geometry := [Grid.ell : @geom _ Grid.lib] |}
           (Grid.answer [])).
  reflexivity.
Defined.

(** C8, the claim as stated fails: on an answer without elements the
    boundary stage of [sample.py] does not fail, it returns [None]; the run
    goes on into [fetch_water], and it is there that it ends, on the bounds
    of [None]. *)
Lemma sample_boundary_stage_returns_none :
  Sample.fetch_place_boundary (S := Grid.lib) (Grid.answer []) = Ok None
  /\ Sample.land_only_boundary (S := Grid.lib) (Grid.answer [])
       (fun _ => Grid.answer [])
     = Raise (AttributeError "bounds").
Proof. split; reflexivity. Qed.

(** ** Two shapes on one element *)

(** Whenever both shapes of a relation give a polygon that is admitted,
    the element appends the two of them. *)
Lemma both_extractions_run {N : Num} {S : Shapely} (el : element)
    (members : list member) (g : list point) (ring1 ring2 : list coord)
    (p1 p2 : geom) :
  get_eqb (el_type el) "relation" = true ->
  el_members el = Some members ->
  ShowLandOutline.way_coords members <> [] ->
  close_ring (ShowLandOutline.way_coords members) = Ok ring1 ->
  ingest_polygon ring1 = Some [p1] ->
  el_geometry el = Some g ->
  build_ring (map coord_of g) = Ok (Some ring2) ->
  ingest_polygon ring2 = Some [p2] ->
  ShowLandOutline.element_geoms el = Ok [p1; p2].
Proof.
  intros Hrel Hm Hne Hc1 Hi1 Hg Hb2 Hi2.
  unfold ShowLandOutline.element_geoms, ShowLandOutline.from_members,
    ShowLandOutline.from_geometry.
  rewrite Hrel, Hm, Hg, Hb2.
  destruct (ShowLandOutline.way_coords members) as [| c0 rest];
    [congruence | ].
  rewrite Hc1. simpl. rewrite Hi1, Hi2. reflexivity.
Qed.

(** C9, the code at the failing input: a relation that carries a ring under
    its member way and another ring on the element itself.  Both extractions
    run, both append their polygon, and the boundary is the union of the
    two. *)
Lemma both_extractions_contribute :
  let el := Grid.relation_with_both Grid.unit_square (Grid.rect_ring 0 0 2 2) in
  ShowLandOutline.from_members (S := Grid.lib) el
  = Ok (Some [Grid.grid_box 0 0 1 1])
  /\ ShowLandOutline.from_geometry (S := Grid.lib) el
     = Ok (Some [Grid.grid_box 0 0 2 2])
  /\ ShowLandOutline.element_geoms (S := Grid.lib) el
     = Ok [Grid.grid_box 0 0 1 1; Grid.grid_box 0 0 2 2]
  /\ ShowLandOutline.fetch_place_boundary (S := Grid.lib) "Monaco"
       (Grid.answer [el])
     = Ok (Grid.grid_box 0 0 2 2).
Proof. repeat split. Qed.

(** C3, as amended, at an input: four corners of a square given without
    the closing point come back closed, five points long. *)
Lemma build_ring_contract_witness :
  let open_square : list (@coord Grid.ZNum) :=
    [(0, 0); (1, 0); (1, 1); (0, 1)]%Z in
  closed_ring (open_square ++ [(0, 0)%Z])
  /\ 4 <= length (open_square ++ [(0, 0)%Z]).
Proof.
  intros open_square.
  destruct (build_ring_contract open_square) as (_ & _ & H).
  destruct (H (open_square ++ [(0, 0)%Z]) eq_refl) as (Hclosed & Hlen & _).
  split; [exact Hclosed | exact Hlen].
Defined.

(** C10, the code at the failing input: a relation whose member way has a
    single point and which carries the unit square itself.  The polygon of
    the member way cannot be constructed; the handler's [continue] skips it
    and, with it, the ring of the element, which taken alone gives a polygon
    that is admitted.  The element contributes nothing and no boundary is
    found. *)
Lemma skipped_members_abort_own_ring :
  let el := Grid.relation_with_both [Grid.pt 0 0] Grid.unit_square in
  Polygon (Shapely := Grid.lib) [(0, 0)%Z] = Raise ValueError
  /\ ShowLandOutline.from_members (S := Grid.lib) el = Ok None
  /\ ShowLandOutline.from_geometry (S := Grid.lib) el
     = Ok (Some [Grid.grid_box 0 0 1 1])
  /\ ShowLandOutline.element_geoms (S := Grid.lib) el = Ok []
  /\ ShowLandOutline.fetch_place_boundary (S := Grid.lib) "Monaco"
       (Grid.answer [el])
     = Raise (RuntimeError
                "No relation geometry found for 'Monaco'. Try a more specific name.").
Proof. repeat split. Qed.

(** ** Areas *)

Section AreaFacts.
Context {N : Num} {S : Shapely}.
Hypothesis difference_shrinks :
  forall a b r : geom, difference a b = Ok r -> (area r <= area a)%Q.
Hypothesis intersection_shrinks :
  forall a b r : geom, intersection a b = Ok r -> (area r <= area a)%Q.

Lemma intersection_step_area (B : geom) (land_subset : list geom) (r : geom) :
  ShowLandOutline.intersection_step B land_subset = Ok r ->
  (area r <= area B)%Q.
Proof.
  unfold ShowLandOutline.intersection_step.
  destruct (0 <? length land_subset).
  - destruct (unary_union land_subset) as [u | e]; cbn [bind];
      [ | discriminate].
    destruct (truthy u).
    + apply intersection_shrinks.
    + intros H. inversion H. apply Qle_refl.
  - cbn [bind]. intros H. inversion H. apply Qle_refl.
Qed.

Lemma difference_step_area (B G B' r : geom) :
  repair B = Ok B' ->
  Sample.difference_step (Some B) (Some G) = Ok (Some r) ->
  r = B \/ (area r <= area B')%Q.
Proof.
  intros HB. unfold Sample.difference_step.
  destruct (truthy B && truthy G); [ | intros H; inversion H; auto].
  rewrite HB. cbn [bind].
  destruct (repair G) as [G' | e]; cbn [bind]; [ | discriminate].
  destruct (difference B' G') as [land | e] eqn:Hd; cbn [bind];
    [ | discriminate].
  intros H. inversion H; subst. right. apply (difference_shrinks _ _ Hd).
Qed.
End AreaFacts.

(** C2, as amended.  Take a library whose difference and intersection
    never return more area than their first operand has.  Then the
    intersection step of [show_land_outline.py] never returns more area than
    the boundary it is given, and the difference step of [sample.py] never
    returns more area than a valid boundary.  An invalid boundary is replaced
    by its zero-width buffer before the difference: the result is then the
    boundary itself or has no more area than that buffer. *)
Theorem compose_area_bound {N : Num} {S : Shapely}
    (difference_shrinks :
       forall a b r : geom, difference a b = Ok r -> (area r <= area a)%Q)
    (intersection_shrinks :
       forall a b r : geom, intersection a b = Ok r -> (area r <= area a)%Q)
    (B : geom) :
  (forall land_subset r,
      ShowLandOutline.intersection_step B land_subset = Ok r ->
      (area r <= area B)%Q)
  /\ (forall G r,
        is_valid B = true ->
        Sample.difference_step (Some B) (Some G) = Ok (Some r) ->
        (area r <= area B)%Q)
  /\ (forall G r,
        is_valid B = false ->
        Sample.difference_step (Some B) (Some G) = Ok (Some r) ->
        r = B \/ exists B', buffer0 B = Ok B' /\ (area r <= area B')%Q).
Proof.
  split; [ | split].
  - intros land_subset r. apply intersection_step_area.
    exact intersection_shrinks.
  - intros G r Hv H.
    destruct (difference_step_area difference_shrinks B G (repair_valid _ Hv) H)
      as [Heq | Hle]; [subst r; apply Qle_refl | exact Hle].
  - intros G r Hv H.
    destruct (buffer0 B) as [B' | e] eqn:Hb.
    + assert (Hr : repair B = Ok B') by (unfold repair; rewrite Hv; exact Hb).
      destruct (difference_step_area difference_shrinks B G Hr H)
        as [Heq | Hle]; [left; exact Heq | right; eauto].
    + left. unfold Sample.difference_step, repair in H. rewrite Hv, Hb in H.
      destruct (truthy B && truthy G); [discriminate | ].
      inversion H. reflexivity.
Qed.

Lemma grid_filter_area (f : Grid.cell -> bool) (cells : list Grid.cell) :
  (Grid.grid_area (Grid.Region (filter f cells))
   <= Grid.grid_area (Grid.Region cells))%Q.
Proof.
  unfold Grid.grid_area. rewrite <- Zle_Qle. apply Nat2Z.inj_le.
  apply filter_length_le.
Qed.

(** C2, as amended, at a run: the grid library keeps the two laws, and a
    two-by-two boundary loses the unit square. *)
Lemma compose_area_bound_witness :
  (area (Shapely := Grid.lib) (Grid.Region [(0, 1); (1, 0); (1, 1)]%Z)
   <= area (Shapely := Grid.lib) (Grid.grid_box 0 0 2 2))%Q.
Proof.
  assert (Hd : forall a b r : @geom _ Grid.lib,
             difference a b = Ok r -> (area r <= area a)%Q).
  { intros [ca | ring | k d] [cb | ring' | k' d'] r H; try discriminate.
    inversion H. apply grid_filter_area. }
  assert (Hi : forall a b r : @geom _ Grid.lib,
             intersection a b = Ok r -> (area r <= area a)%Q).
  { intros [ca | ring | k d] [cb | ring' | k' d'] r H; try discriminate.
    inversion H. apply grid_filter_area. }
  destruct (compose_area_bound (S := Grid.lib) Hd Hi (Grid.grid_box 0 0 2 2))
    as (_ & H & _).
  apply (H (Grid.grid_box 0 0 1 1)); reflexivity.
Defined.

(** C2, the claim as stated fails: the boundary is a bow-tie, whose signed
    lobe areas cancel, and the water lies elsewhere.  The boundary is
    invalid, so [sample.py] takes its zero-width buffer, one lobe, and the
    land it returns has more area than the boundary had. *)
Lemma buffered_boundary_gains_area :
  let B := Grid.bowtie_at 0 0 in
  let G := Grid.grid_box 5 5 6 6 in
  is_valid (Shapely := Grid.lib) B = false
  /\ area (Shapely := Grid.lib) B = 0%Q
  /\ Sample.difference_step (S := Grid.lib) (Some B) (Some G)
     = Ok (Some (Grid.Region [(0, 0)%Z]))
  /\ area (Shapely := Grid.lib) (Grid.Region [(0, 0)%Z]) = 1%Q
  /\ (area (Shapely := Grid.lib) B
      < area (Shapely := Grid.lib) (Grid.Region [(0, 0)%Z]))%Q.
Proof. repeat split. Qed.

(** * Further properties of the code *)

(** ** Closing rings *)

Lemma close_ring_closed {N : Num} (ring : list coord) :
  closed_ring ring -> close_ring ring = Ok ring.
Proof.
  intros (c0 & rest & Heq & Hlast). subst ring. unfold close_ring.
  destruct (coord_eq_dec c0 (last (c0 :: rest) c0)) as [_ | Hne];
    [reflexivity | congruence].
Qed.

(** X1.  Whatever ring the builder produces keeps every point of the input
    in its place, adds at most the closing point, and is a fixed point of the
    builder: building it again changes nothing. *)
Theorem build_ring_keeps_points {N : Num} (coords ring : list coord) :
  build_ring coords = Ok (Some ring) ->
  firstn (length coords) ring = coords
  /\ length ring <= length coords + 1
  /\ build_ring ring = Ok (Some ring).
Proof.
  intros Hb.
  destruct (Nat.lt_ge_cases (length coords) 4) as [Hshort | Hlong].
  { rewrite (build_ring_short coords Hshort) in Hb. discriminate. }
  destruct (build_ring_long coords Hlong) as (ring' & Hb' & Hc & Hclosed & Hlen).
  rewrite Hb' in Hb. inversion Hb; subst ring'. clear Hb.
  assert (Hagain : build_ring ring = Ok (Some ring)).
  { destruct (build_ring_long ring Hlen) as (ring2 & Hb2 & Hc2 & _).
    rewrite (close_ring_closed Hclosed) in Hc2. inversion Hc2; subst ring2.
    exact Hb2. }
  destruct coords as [| c0 rest]; [simpl in Hlong; lia | ].
  destruct (close_ring_cons c0 rest) as (ring2 & Hc2 & _ & Hcase).
  rewrite Hc in Hc2. inversion Hc2; subst ring2.
  destruct Hcase as [[_ Heq] | [_ Heq]]; subst ring.
  - split; [apply firstn_all | split; [lia | exact Hagain]].
  - split; [ | split; [rewrite length_app; simpl; lia | exact Hagain]].
    rewrite firstn_app, firstn_all, Nat.sub_diag. simpl.
    rewrite app_nil_r. reflexivity.
Qed.

(** X1 at an input: the four corners of a square. *)
Lemma build_ring_keeps_points_witness :
  let open_square : list (@coord Grid.ZNum) :=
    [(0, 0); (1, 0); (1, 1); (0, 1)]%Z in
  let ring := open_square ++ [(0, 0)%Z] in
  firstn 4 ring = open_square
  /\ length ring <= 5
  /\ build_ring ring = Ok (Some ring).
Proof.
  intros open_square ring.
  apply (build_ring_keeps_points open_square (ring := ring)). reflexivity.
Defined.

(** ** The boundary of [sample.py] *)

(** X2.  [fetch_place_boundary] of [sample.py] stops at the first relation
    of the answer: elements of another type before it are passed over, and
    nothing after it is looked at, so the result is that of the relation
    alone, which is a polygon or an exception and never [None]. *)
Theorem first_relation_wins {N : Num} {S : Shapely}
    (pre post : list element) (rel : element) :
  Forall (fun el => exists t, el_type el = Some t
                              /\ String.eqb t "relation" = false) pre ->
  el_type rel = Some "relation"%string ->
  Sample.fetch_place_boundary {| elements := Some (pre ++ rel :: post) |}
  = Sample.fetch_place_boundary {| elements := Some [rel] |}
  /\ Sample.fetch_place_boundary {| elements := Some [rel] |} <> Ok None.
Proof.
  intros Hpre Hrel. unfold Sample.fetch_place_boundary. simpl.
  rewrite Hrel. simpl. split.
  - induction Hpre as [| el pre' (t & Ht & Hne) _ IH]; simpl.
    + rewrite Hrel. reflexivity.
    + rewrite Ht. simpl. rewrite Hne. exact IH.
  - destruct (index "members" (el_members rel)) as [members | e];
      simpl; [ | discriminate].
    destruct (Sample.member_coords members) as [coords | e];
      simpl; [ | discriminate].
    destruct (Polygon coords) as [poly | e]; simpl; discriminate.
Qed.

(** X2 at an input: a way, then two relations; the second relation, whose
    ring has two points only, is never built. *)
Lemma first_relation_wins_witness :
  Sample.fetch_place_boundary (S := Grid.lib)
    (Grid.answer [Grid.way Grid.unit_square;
                  Grid.relation_of_ways [Grid.rect_ring 0 0 2 2];
                  Grid.relation_of_ways [[Grid.pt 0 0; Grid.pt 1 1]]])
  = Sample.fetch_place_boundary (S := Grid.lib)
      (Grid.answer [Grid.relation_of_ways [Grid.rect_ring 0 0 2 2]]).
Proof.
  apply (first_relation_wins (S := Grid.lib)
           (pre := [Grid.way Grid.unit_square])
           [Grid.relation_of_ways [[Grid.pt 0 0; Grid.pt 1 1]]]
           (Grid.relation_of_ways [Grid.rect_ring 0 0 2 2])).
  - repeat constructor. exists "way"%string. split; reflexivity.
  - reflexivity.
Defined.

(** X3.  The two scripts read the member ways alike: wherever the strict
    reading of [sample.py] (which raises on a member without a type, or a way
    without a geometry) returns coordinates, the tolerant reading of
    [show_land_outline.py] returns the same coordinates in the same order. *)
Theorem member_readings_agree {N : Num} {S : Shapely}
    (members : list member) (coords : list coord) :
  Sample.member_coords members = Ok coords ->
  ShowLandOutline.way_coords members = coords.
Proof.
  revert coords. induction members as [| m rest IH]; intros coords H.
  - inversion H. reflexivity.
  - simpl in H. simpl.
    destruct (m_type m) as [t | ]; simpl in H; [ | discriminate].
    simpl. destruct (String.eqb t "way").
    + destruct (m_geometry m) as [g | ]; simpl in H; [ | discriminate].
      destruct (Sample.member_coords rest) as [more | e]; simpl in H;
        [ | discriminate].
      inversion H. rewrite (IH more eq_refl). reflexivity.
    + apply IH. exact H.
Qed.

(** X3 at an input: a node member between two ways. *)
Lemma member_readings_agree_witness :
  ShowLandOutline.way_coords (N := Grid.ZNum)
    [{| m_type := Some "way"%string; m_geometry := Some [Grid.pt 0 0; Grid.pt 1 0] |};
     {| m_type := Some "node"%string; m_geometry := None |};
     {| m_type := Some "way"%string; m_geometry := Some [Grid.pt 1 1] |}]
  = [(0, 0); (1, 0); (1, 1)]%Z.
Proof.
  apply (member_readings_agree (S := Grid.lib)). reflexivity.
Defined.

(** X4.  Whenever [land_only_boundary] returns, a boundary was found and
    the result is a geometry, never [None]: it is the boundary exactly as
    fetched, or the difference of the repaired boundary and the repaired
    water union, taken when neither is empty. *)
Theorem land_only_boundary_result {N : Num} {S : Shapely}
    (data : response) (service : num * num * num * num -> response)
    (r : option geom) :
  Sample.land_only_boundary data service = Ok r ->
  exists boundary,
    Sample.fetch_place_boundary data = Ok (Some boundary)
    /\ (r = Some boundary
        \/ exists water b' w' land,
             Sample.fetch_water service (Some boundary) = Ok (Some water)
             /\ is_empty boundary = false /\ is_empty water = false
             /\ repair boundary = Ok b' /\ repair water = Ok w'
             /\ difference b' w' = Ok land /\ r = Some land).
Proof.
  unfold Sample.land_only_boundary. intros H.
  destruct (Sample.fetch_place_boundary data) as [[b | ] | e];
    cbn [bind] in H; try discriminate.
  exists b. split; [reflexivity | ].
  destruct (Sample.fetch_water service (Some b)) as [[w | ] | e] eqn:Hw;
    cbn [bind] in H; try discriminate.
  - unfold Sample.difference_step, truthy in H.
    destruct (is_empty b) eqn:Hb; simpl in H; [left; congruence | ].
    destruct (is_empty w) eqn:Hwe; simpl in H; [left; congruence | ].
    destruct (repair b) as [b' | e] eqn:Hrb; simpl in H; [ | discriminate].
    destruct (repair w) as [w' | e] eqn:Hrw; simpl in H; [ | discriminate].
    destruct (difference b' w') as [land | e] eqn:Hd; simpl in H;
      [ | discriminate].
    right. exists w, b', w', land. inversion H. auto 10.
  - left. simpl in H. congruence.
Qed.

(** X4 at a run: a two-by-two boundary with the unit square as water. *)
Lemma land_only_boundary_result_witness :
  exists boundary : @geom _ Grid.lib,
    Sample.fetch_place_boundary (S := Grid.lib)
      (Grid.answer [Grid.relation_of_ways [Grid.rect_ring 0 0 2 2]])
    = Ok (Some boundary).
Proof.
  destruct (land_only_boundary_result (S := Grid.lib)
              (Grid.answer [Grid.relation_of_ways [Grid.rect_ring 0 0 2 2]])
              (fun _ => Grid.answer [Grid.way Grid.unit_square])
              (r := Some (Grid.Region [(0, 1); (1, 0); (1, 1)]%Z))
              eq_refl) as (boundary & H & _).
  exists boundary. exact H.
Defined.



(** ** The boundary of [show_land_outline.py] *)

Section BoundaryFacts.
Context {N : Num} {S : Shapely}.

Lemma collect_element_geoms (els : list element) :
  collect ShowLandOutline.element_geoms els
  = Ok (flat_map (appended ShowLandOutline.element_geoms) els)
  /\ Forall admitted (flat_map (appended ShowLandOutline.element_geoms) els).
Proof.
  split.
  - apply collect_flat_map. intros el.
    destruct (element_geoms_total el) as (polys & H & _). eauto.
  - apply Forall_flat_map, Forall_forall. intros el _. unfold appended.
    destruct (element_geoms_total el) as (polys & H & Hall).
    rewrite H. exact Hall.
Qed.

Lemma ingest_polygon_length (coords : list coord) (polys : list geom) :
  ingest_polygon coords = Some polys -> length polys <= 1.
Proof.
  unfold ingest_polygon. destruct (Polygon coords) as [poly | e];
    [ | discriminate].
  destruct (is_valid poly && negb (is_empty poly)); intros H;
    inversion H; simpl; lia.
Qed.

Lemma water_element_length (el : element) :
  length (appended Sample.water_element el) <= 1.
Proof.
  unfold appended, Sample.water_element.
  destruct (el_geometry el) as [g | ]; [ | simpl; lia].
  destruct (build_ring (map coord_of g)) as [[ring | ] | e]; simpl; try lia.
  destruct (ingest_polygon ring) as [polys | ] eqn:Hi; simpl; [ | lia].
  apply (ingest_polygon_length _ Hi).
Qed.

Lemma element_geoms_length (el : element) :
  length (appended ShowLandOutline.element_geoms el) <= 2.
Proof.
  unfold appended, ShowLandOutline.element_geoms.
  assert (H1 : forall r, ShowLandOutline.from_members el = Ok (Some r) ->
                         length r <= 1).
  { unfold ShowLandOutline.from_members. intros r.
    destruct (get_eqb (el_type el) "relation");
      [ | intros H; inversion H; simpl; lia].
    destruct (el_members el) as [members | ];
      [ | intros H; inversion H; simpl; lia].
    destruct (ShowLandOutline.way_coords members) as [| c0 rest];
      [intros H; inversion H; simpl; lia | ].
    destruct (close_ring (c0 :: rest)) as [ring | e]; simpl; [ | discriminate].
    intros H. inversion H as [Hi]. apply (ingest_polygon_length _ Hi). }
  assert (H2 : forall r, ShowLandOutline.from_geometry el = Ok (Some r) ->
                         length r <= 1).
  { unfold ShowLandOutline.from_geometry. intros r.
    destruct (get_eqb (el_type el) "relation");
      [ | intros H; inversion H; simpl; lia].
    destruct (el_geometry el) as [g | ];
      [ | intros H; inversion H; simpl; lia].
    destruct (build_ring (map coord_of g)) as [[ring | ] | e]; simpl;
      [ | intros H; inversion H; simpl; lia | discriminate].
    intros H. inversion H as [Hi]. apply (ingest_polygon_length _ Hi). }
  destruct (ShowLandOutline.from_members el) as [[g1 | ] | e]; simpl; try lia.
  specialize (H1 g1 eq_refl).
  destruct (ShowLandOutline.from_geometry el) as [[g2 | ] | e]; simpl; try lia.
  specialize (H2 g2 eq_refl). rewrite length_app. lia.
Qed.
End BoundaryFacts.

(** X6.  On an answer whose points carry [lon] and [lat],
    [fetch_place_boundary] of [show_land_outline.py] fails in two ways only,
    whichever of the keys [elements], [type], [members] and [geometry] are
    missing: with the "No relation geometry found" error when no polygon was
    collected, or with the exception of the union of two or more collected
    polygons, all of them admitted. *)
Theorem fetch_place_boundary_failures {N : Num} {S : Shapely}
    (place_name : string) (data : response) (e : exn) :
  ShowLandOutline.fetch_place_boundary place_name data = Raise e ->
  let els := match elements data with Some l => l | None => [] end in
  let geoms := flat_map (appended ShowLandOutline.element_geoms) els in
  (geoms = []
   /\ e = RuntimeError (ShowLandOutline.no_relation_message place_name))
  \/ (2 <= length geoms /\ Forall admitted geoms
      /\ unary_union geoms = Raise e).
Proof.
  intros H els geoms. unfold ShowLandOutline.fetch_place_boundary in H.
  fold els in H.
  destruct (collect_element_geoms els) as (Hc & Hall).
  rewrite Hc in H. fold geoms in H, Hall. simpl in H.
  destruct geoms as [| g1 [| g2 rest]]; simpl in H.
  - left. split; [reflexivity | congruence].
  - discriminate.
  - right. split; [simpl; lia | split; assumption].
Qed.

(** X6 at a run: a relation without members and without a geometry. *)
Lemma fetch_place_boundary_failures_witness :
  let els := [{| el_type := Some "relation"%string;
                 el_members := None; el_geometry := None |}] in
  let geoms :=
    flat_map (appended (ShowLandOutline.element_geoms (S := Grid.lib))) els in
  (geoms = []
   /\ RuntimeError (ShowLandOutline.no_relation_message "Monaco")
      = RuntimeError (ShowLandOutline.no_relation_message "Monaco"))
  \/ (2 <= length geoms /\ Forall admitted geoms
      /\ unary_union geoms
         = Raise (RuntimeError (ShowLandOutline.no_relation_message "Monaco"))).
Proof.
  apply (fetch_place_boundary_failures (S := Grid.lib) "Monaco"
           (Grid.answer [{| el_type := Some "relation"%string;
                            el_members := None; el_geometry := None |}])).
  reflexivity.
Defined.

(** X7.  When exactly one polygon is collected, it is the boundary as it
    stands: no union is taken, the polygon is valid and not empty, the repair
    of lines 111-112 leaves it alone, and it is the boundary layer of every
    run of [main] that reaches the map. *)
Theorem single_polygon_boundary {N : Num} {S : Shapely}
    (place_name : string) (land_gdf : ShowLandOutline.GeoDataFrame)
    (data : response) (p : geom) :
  collect ShowLandOutline.element_geoms
    (match elements data with Some l => l | None => [] end) = Ok [p] ->
  ShowLandOutline.fetch_place_boundary place_name data = Ok p
  /\ is_valid p = true /\ is_empty p = false
  /\ repair p = Ok p
  /\ (forall out B r,
        ShowLandOutline.main place_name land_gdf data = (out, Ok (B, r)) ->
        B = p).
Proof.
  intros Hc.
  assert (Hf : ShowLandOutline.fetch_place_boundary place_name data = Ok p).
  { unfold ShowLandOutline.fetch_place_boundary. rewrite Hc. reflexivity. }
  assert (Hadm : admitted p).
  { destruct (collect_element_geoms
                (match elements data with Some l => l | None => [] end))
      as (Hc' & Hall).
    rewrite Hc in Hc'. inversion Hc' as [Heq]. rewrite <- Heq in Hall.
    inversion Hall. assumption. }
  destruct Hadm as (Hv & He & _).
  assert (Hr : repair p = Ok p) by (apply repair_valid; exact Hv).
  repeat split; try assumption.
  intros out B r Hmain. rewrite main_stages, Hf, Hr in Hmain.
  cbv zeta in Hmain.
  destruct (ShowLandOutline.clamp_stage p _) as [out2 [clamped | e]];
    [ | discriminate].
  destruct (repair clamped) as [final | e]; [ | discriminate].
  destruct (save_map place_name p final) as [[] | e]; [ | discriminate].
  inversion Hmain. reflexivity.
Qed.

(** X7 at a run: one relation, one land row. *)
Lemma single_polygon_boundary_witness :
  ShowLandOutline.fetch_place_boundary (S := Grid.lib) "Monaco"
    (Grid.answer [Grid.relation_of_ways [Grid.rect_ring 0 0 2 2]])
  = Ok (Grid.grid_box 0 0 2 2).
Proof.
  apply (single_polygon_boundary (S := Grid.lib) "Monaco"
           (Grid.frame Grid.lib [Grid.grid_box 0 0 1 1])
           (Grid.answer [Grid.relation_of_ways [Grid.rect_ring 0 0 2 2]])).
  reflexivity.
Defined.

(** X8.  When the polygon of the member ways cannot be constructed, the
    handler's [continue] ends the work on that element: the ring the element
    carries itself is not tried, and the element contributes nothing. *)
Theorem failed_members_silence_element {N : Num} {S : Shapely}
    (el : element) (members : list member) (ring : list coord) (e : exn) :
  get_eqb (el_type el) "relation" = true ->
  el_members el = Some members ->
  ShowLandOutline.way_coords members <> [] ->
  close_ring (ShowLandOutline.way_coords members) = Ok ring ->
  Polygon ring = Raise e ->
  ShowLandOutline.element_geoms el = Ok [].
Proof.
  intros Hrel Hm Hne Hc Hp.
  unfold ShowLandOutline.element_geoms, ShowLandOutline.from_members.
  rewrite Hrel, Hm.
  destruct (ShowLandOutline.way_coords members) as [| c0 rest];
    [congruence | ].
  rewrite Hc. simpl. unfold ingest_polygon. rewrite Hp. reflexivity.
Qed.

(** X8 at a run: the member way has a single point, the element itself
    carries the unit square, and no boundary is found. *)
Lemma failed_members_silence_element_witness :
  ShowLandOutline.element_geoms (S := Grid.lib)
    (Grid.relation_with_both [Grid.pt 0 0] Grid.unit_square)
  = Ok [].
Proof.
  apply (failed_members_silence_element (S := Grid.lib)
           (Grid.relation_with_both [Grid.pt 0 0] Grid.unit_square)
           (members := [{| m_type := Some "way"%string;
                           m_geometry := Some [Grid.pt 0 0] |}])
           (ring := [(0, 0)%Z]) (e := ValueError)).
  - reflexivity.
  - reflexivity.
  - discriminate.
  - reflexivity.
  - reflexivity.
Defined.

(** X9.  Only relations count: an answer without an [elements] key, or
    whose elements are all of another type (or of none), gives no boundary,
    and [fetch_place_boundary] raises the "No relation geometry found"
    error. *)
Theorem only_relations_count {N : Num} {S : Shapely}
    (place_name : string) (data : response) :
  Forall (fun el => get_eqb (el_type el) "relation" = false)
         (match elements data with Some l => l | None => [] end) ->
  ShowLandOutline.fetch_place_boundary place_name data
  = Raise (RuntimeError (ShowLandOutline.no_relation_message place_name)).
Proof.
  intros Hall. unfold ShowLandOutline.fetch_place_boundary.
  assert (Hc : collect ShowLandOutline.element_geoms
                 (match elements data with Some l => l | None => [] end)
               = Ok []).
  { induction Hall as [| el rest Hel _ IH]; [reflexivity | ].
    simpl. unfold ShowLandOutline.element_geoms at 1.
    unfold ShowLandOutline.from_members, ShowLandOutline.from_geometry.
    rewrite Hel. simpl. rewrite IH. reflexivity. }
  rewrite Hc. reflexivity.
Qed.

(** X9 at a run: the answer holds a closed way and nothing else. *)
Lemma only_relations_count_witness :
  ShowLandOutline.fetch_place_boundary (S := Grid.lib) "Monaco"
    (Grid.answer [Grid.way Grid.unit_square])
  = Raise (RuntimeError
             "No relation geometry found for 'Monaco'. Try a more specific name.").
Proof.
  apply (only_relations_count (S := Grid.lib) "Monaco"
           (Grid.answer [Grid.way Grid.unit_square])).
  repeat constructor.
Defined.

(** X10.  Whatever the loops collect, it is at most one water polygon per
    element of the water answer, and at most two boundary polygons per
    element of the boundary answer. *)
Theorem collected_counts {N : Num} {S : Shapely} (els : list element) :
  (forall water_polys,
      collect Sample.water_element els = Ok water_polys ->
      length water_polys <= length els)
  /\ (forall geoms,
        collect ShowLandOutline.element_geoms els = Ok geoms ->
        length geoms <= 2 * length els).
Proof.
  split.
  - intros water_polys H.
    rewrite (collect_flat_map Sample.water_element els) in H.
    2: { intros el. destruct (water_element_total el) as (polys & Hp & _).
         eauto. }
    inversion H. clear.
    induction els as [| el rest IH]; simpl; [lia | ].
    rewrite length_app. pose proof (water_element_length el). lia.
  - intros geoms H.
    rewrite (proj1 (collect_element_geoms els)) in H. inversion H. clear.
    induction els as [| el rest IH]; simpl; [lia | ].
    rewrite length_app. pose proof (element_geoms_length el). lia.
Qed.

(** X10 at an input: one relation that carries two rings gives two
    polygons. *)
Lemma collected_counts_witness :
  length [Grid.grid_box 0 0 1 1; Grid.grid_box 0 0 2 2] <= 2 * 1.
Proof.
  destruct (collected_counts (S := Grid.lib)
              [Grid.relation_with_both Grid.unit_square
                 (Grid.rect_ring 0 0 2 2)]) as (_ & H).
  apply (H [Grid.grid_box 0 0 1 1; Grid.grid_box 0 0 2 2]). reflexivity.
Defined.

(** ** The run of [main] *)

Section RunFacts.
Context {N : Num} {S : Shapely}.

Lemma crs_messages_cases (land_gdf : ShowLandOutline.GeoDataFrame) :
  (ShowLandOutline.crs land_gdf = None
   /\ ShowLandOutline.crs_messages land_gdf = [MsgNoCRS]
   /\ ShowLandOutline.geometry (ShowLandOutline.reprojected land_gdf)
      = ShowLandOutline.geometry land_gdf)
  \/ (ShowLandOutline.crs land_gdf = Some "EPSG:4326"%string
      /\ ShowLandOutline.crs_messages land_gdf = []
      /\ ShowLandOutline.reprojected land_gdf = land_gdf)
  \/ (exists c, ShowLandOutline.crs land_gdf = Some c
                /\ c <> "EPSG:4326"%string
                /\ ShowLandOutline.crs_messages land_gdf = [MsgReprojecting c]
                /\ ShowLandOutline.geometry (ShowLandOutline.reprojected land_gdf)
                   = map (to_crs_4326 c) (ShowLandOutline.geometry land_gdf)).
Proof.
  unfold ShowLandOutline.crs_messages, ShowLandOutline.reprojected,
    ShowLandOutline.to_wgs84.
  destruct (ShowLandOutline.crs land_gdf) as [c | ] eqn:Hc.
  - destruct (String.eqb_spec c "EPSG:4326") as [Heq | Hne]; simpl.
    + right. left. subst c. auto.
    + right. right. exists c. auto.
  - left. auto.
Qed.

Lemma clamp_stage_cases (boundary_geom : geom) (land_subset : list geom) :
  (exists g,
      ShowLandOutline.intersection_step boundary_geom land_subset = Ok g
      /\ ShowLandOutline.clamp_stage boundary_geom land_subset = ([], Ok g))
  \/ (exists e,
        ShowLandOutline.intersection_step boundary_geom land_subset = Raise e
        /\ ShowLandOutline.clamp_stage boundary_geom land_subset
           = ([MsgFallback e],
              match ShowLandOutline.per_feature boundary_geom land_subset with
              | [] => Ok boundary_geom
              | parts => unary_union parts
              end)).
Proof.
  unfold ShowLandOutline.clamp_stage.
  destruct (ShowLandOutline.intersection_step boundary_geom land_subset)
    as [g | e].
  - left. exists g. split; reflexivity.
  - right. exists e. split; [reflexivity | ].
    unfold ShowLandOutline.fallback, try_except, lift.
    generalize (ShowLandOutline.per_feature boundary_geom land_subset).
    intros [| part parts]; reflexivity.
Qed.

Lemma crs_messages_not_saved (land_gdf : ShowLandOutline.GeoDataFrame) :
  ~ In MsgSaved (ShowLandOutline.crs_messages land_gdf).
Proof.
  destruct (crs_messages_cases land_gdf)
    as [(_ & H & _) | [(_ & H & _) | (c & _ & _ & H & _)]];
    rewrite H; simpl; intuition discriminate.
Qed.

Lemma clamp_stage_not_saved (boundary_geom : geom) (land_subset : list geom) :
  ~ In MsgSaved (fst (ShowLandOutline.clamp_stage boundary_geom land_subset)).
Proof.
  destruct (clamp_stage_cases boundary_geom land_subset)
    as [(g & _ & H) | (e & _ & H)]; rewrite H; simpl;
    intuition discriminate.
Qed.

Lemma no_land_messages_not_saved (land_subset : list geom) :
  ~ In MsgSaved (ShowLandOutline.no_land_messages land_subset).
Proof. destruct land_subset; simpl; intuition discriminate. Qed.

Lemma filter_twice {A : Type} (f : A -> bool) (l : list A) :
  filter f (filter f l) = filter f l.
Proof.
  induction l as [| a l IH]; [reflexivity | ].
  simpl. destruct (f a) eqn:Ha; [ | exact IH].
  simpl. rewrite Ha, IH. reflexivity.
Qed.
End RunFacts.

(** X11.  After lines 100-105 the land frame is in EPSG:4326 and has as
    many rows as before.  Nothing is printed exactly when the frame was in
    EPSG:4326 already; a frame without a reference system is taken to be in
    EPSG:4326 as it is, its rows untouched. *)
Theorem to_wgs84_frame {N : Num} {S : Shapely}
    (land_gdf : ShowLandOutline.GeoDataFrame) :
  ShowLandOutline.crs (ShowLandOutline.reprojected land_gdf)
  = Some "EPSG:4326"%string
  /\ length (ShowLandOutline.geometry (ShowLandOutline.reprojected land_gdf))
     = length (ShowLandOutline.geometry land_gdf)
  /\ (ShowLandOutline.crs_messages land_gdf = []
      <-> ShowLandOutline.crs land_gdf = Some "EPSG:4326"%string)
  /\ (ShowLandOutline.crs land_gdf = None ->
      ShowLandOutline.geometry (ShowLandOutline.reprojected land_gdf)
      = ShowLandOutline.geometry land_gdf).
Proof.
  unfold ShowLandOutline.crs_messages, ShowLandOutline.reprojected,
    ShowLandOutline.to_wgs84.
  destruct (ShowLandOutline.crs land_gdf) as [c | ] eqn:Hc.
  - destruct (String.eqb_spec c "EPSG:4326") as [Heq | Hne]; simpl.
    + subst c. repeat split; auto; discriminate.
    + rewrite length_map. repeat split; try discriminate.
      intros H. inversion H. contradiction.
  - simpl. repeat split; auto; discriminate.
Qed.

(** X12.  Every run of [main] prints the loading message first, and it
    prints "Map saved" exactly when it ends with the two layers of the map:
    a run that raises, be it in the geometry or in building and saving the
    map, never prints it. *)
Theorem saved_iff_success {N : Num} {S : Shapely}
    (place_name : string) (land_gdf : ShowLandOutline.GeoDataFrame)
    (data : response) :
  hd_error (fst (ShowLandOutline.main place_name land_gdf data))
  = Some MsgLoading
  /\ (In MsgSaved (fst (ShowLandOutline.main place_name land_gdf data))
      <-> exists layers,
            snd (ShowLandOutline.main place_name land_gdf data) = Ok layers).
Proof.
  rewrite main_stages. cbv zeta.
  pose proof (crs_messages_not_saved land_gdf) as Hcrs.
  assert (Hout0 : ~ In MsgSaved
                      (MsgLoading :: ShowLandOutline.crs_messages land_gdf
                         ++ [MsgFetching place_name])).
  { simpl. rewrite in_app_iff. simpl. intuition discriminate. }
  destruct (ShowLandOutline.fetch_place_boundary place_name data)
    as [fetched | e].
  2: { split; [reflexivity | ]. cbn [fst snd].
       split; [intros H; contradiction | intros (l & H); discriminate]. }
  destruct (repair fetched) as [boundary_geom | e].
  2: { split; [reflexivity | ]. cbn [fst snd].
       split; [intros H; contradiction | intros (l & H); discriminate]. }
  set (land_subset := ShowLandOutline.prefilter boundary_geom _).
  pose proof (clamp_stage_not_saved boundary_geom land_subset) as Hclamp.
  pose proof (no_land_messages_not_saved land_subset) as Hland.
  assert (Hout1 : ~ In MsgSaved
                      ((MsgLoading :: ShowLandOutline.crs_messages land_gdf
                          ++ [MsgFetching place_name])
                         ++ MsgFiltering
                         :: ShowLandOutline.no_land_messages land_subset
                         ++ [MsgIntersecting])).
  { rewrite in_app_iff. simpl. rewrite !in_app_iff. simpl.
    simpl in Hout0. rewrite in_app_iff in Hout0. simpl in Hout0.
    intuition discriminate. }
  destruct (ShowLandOutline.clamp_stage boundary_geom land_subset)
    as [out2 [clamped | e]]; simpl in Hclamp.
  2: { split; [reflexivity | ]. cbn [fst snd]. rewrite in_app_iff.
       split; [intros [H | H]; contradiction
              | intros (l & H); discriminate]. }
  destruct (repair clamped) as [final | e].
  2: { split; [reflexivity | ]. cbn [fst snd]. rewrite in_app_iff.
       split; [intros [H | H]; contradiction
              | intros (l & H); discriminate]. }
  destruct (save_map place_name boundary_geom final) as [[] | e].
  - split; [reflexivity | ]. cbn [fst snd]. split.
    + intros _. eexists. reflexivity.
    + intros _. rewrite !in_app_iff. simpl. tauto.
  - split; [reflexivity | ]. cbn [fst snd]. rewrite in_app_iff.
    split; [intros [H | H]; contradiction | intros (l & H); discriminate].
Qed.

(** X12 at a run: the place name holds a [/], saving the map raises, and
    "Map saved" is not printed. *)
Lemma saved_iff_success_witness :
  ShowLandOutline.main (S := Grid.lib) "Ro/Me" (Grid.frame Grid.lib [])
    (Grid.answer [Grid.relation_of_ways [Grid.unit_square]])
  = ([MsgLoading; MsgFetching "Ro/Me"; MsgFiltering; MsgNoLand;
      MsgIntersecting],
     Raise (FileNotFoundError "land_clamped_ro/me.html"))
  /\ ~ In MsgSaved
        (fst (ShowLandOutline.main (S := Grid.lib) "Ro/Me"
                (Grid.frame Grid.lib [])
                (Grid.answer [Grid.relation_of_ways [Grid.unit_square]]))).
Proof.
  split; [reflexivity | ].
  intros Hin.
  destruct (saved_iff_success (S := Grid.lib) "Ro/Me" (Grid.frame Grid.lib [])
              (Grid.answer [Grid.relation_of_ways [Grid.unit_square]]))
    as (_ & Hiff).
  destruct (proj1 Hiff Hin) as (layers & Hok). discriminate Hok.
Defined.

(** X13.  The union-and-intersection stage prints nothing when the body of
    its [try] succeeds, and then returns what the body returned; otherwise
    it prints one message, the fallback message with the exception of the
    body, and its result is the boundary if no per-feature intersection is
    kept and the union of the kept ones if some are. *)
Theorem clamp_stage_reports {N : Num} {S : Shapely}
    (boundary_geom : geom) (land_subset : list geom) :
  let (out, r) := ShowLandOutline.clamp_stage boundary_geom land_subset in
  (out = []
   /\ ShowLandOutline.intersection_step boundary_geom land_subset = r
   /\ exists g, r = Ok g)
  \/ (exists e,
        ShowLandOutline.intersection_step boundary_geom land_subset = Raise e
        /\ out = [MsgFallback e]
        /\ r = match ShowLandOutline.per_feature boundary_geom land_subset with
               | [] => Ok boundary_geom
               | parts => unary_union parts
               end).
Proof.
  destruct (clamp_stage_cases boundary_geom land_subset)
    as [(g & Hi & Hc) | (e & Hi & Hc)]; rewrite Hc.
  - left. split; [reflexivity | split; [exact Hi | eauto]].
  - right. exists e. auto.
Qed.

(** X14.  The land frame reaches the result of [main] through its filtered
    rows only: two frames that print the same reference-system messages and
    leave the same rows after the prefilter give the same run, output and
    result alike. *)
Theorem main_depends_on_filtered_rows {N : Num} {S : Shapely}
    (place_name : string) (land1 land2 : ShowLandOutline.GeoDataFrame)
    (data : response) :
  ShowLandOutline.crs_messages land1 = ShowLandOutline.crs_messages land2 ->
  (forall fetched boundary_geom,
      ShowLandOutline.fetch_place_boundary place_name data = Ok fetched ->
      repair fetched = Ok boundary_geom ->
      ShowLandOutline.prefilter boundary_geom
        (ShowLandOutline.geometry (ShowLandOutline.reprojected land1))
      = ShowLandOutline.prefilter boundary_geom
          (ShowLandOutline.geometry (ShowLandOutline.reprojected land2))) ->
  ShowLandOutline.main place_name land1 data
  = ShowLandOutline.main place_name land2 data.
Proof.
  intros Hmsg Hrows. rewrite !main_stages. cbv zeta. rewrite Hmsg.
  destruct (ShowLandOutline.fetch_place_boundary place_name data)
    as [fetched | e]; [ | reflexivity].
  destruct (repair fetched) as [boundary_geom | e] eqn:Hr; [ | reflexivity].
  rewrite (Hrows fetched boundary_geom eq_refl Hr). reflexivity.
Qed.

(** X14 at a run: the L-shaped row lies outside the box of the boundary,
    and the run is that of the empty frame. *)
Lemma main_depends_on_filtered_rows_witness :
  ShowLandOutline.main (S := Grid.lib) "Monaco"
    (Grid.frame Grid.lib [Grid.ell])
    (Grid.answer [Grid.relation_of_ways [Grid.rect_ring 2 2 3 3]])
  = ShowLandOutline.main (S := Grid.lib) "Monaco"
      (Grid.frame Grid.lib [])
      (Grid.answer [Grid.relation_of_ways [Grid.rect_ring 2 2 3 3]]).
Proof.
  apply (main_depends_on_filtered_rows (S := Grid.lib)).
  - reflexivity.
  - intros fetched boundary_geom Hf Hr.
    inversion Hf; subst fetched. inversion Hr; subst boundary_geom.
    reflexivity.
Defined.

(** X15.  The prefilter treats every row by itself: the rows kept from two
    frames put end to end are the rows kept from each, in order, and
    filtering a second time against the same boundary changes nothing. *)
Theorem prefilter_rowwise {N : Num} {S : Shapely}
    (boundary_geom : geom) (land1 land2 : list geom) :
  ShowLandOutline.prefilter boundary_geom (land1 ++ land2)
  = ShowLandOutline.prefilter boundary_geom land1
    ++ ShowLandOutline.prefilter boundary_geom land2
  /\ ShowLandOutline.prefilter boundary_geom
       (ShowLandOutline.prefilter boundary_geom land1)
     = ShowLandOutline.prefilter boundary_geom land1
  /\ length (ShowLandOutline.prefilter boundary_geom land1) <= length land1.
Proof.
  unfold ShowLandOutline.prefilter.
  split; [apply filter_app | split; [apply filter_twice | apply filter_length_le]].
Qed.

(** ** The script around [main] *)

Lemma safe_char_facts (c : ascii) :
  Ascii.eqb (replace_space (lower_char c)) " " = false
  /\ is_upper (replace_space (lower_char c)) = false
  /\ replace_space (lower_char (replace_space (lower_char c)))
     = replace_space (lower_char c).
Proof.
  destruct c as [[] [] [] [] [] [] [] []]; vm_compute; repeat split.
Qed.

Lemma map_chars_length (f : ascii -> ascii) (s : string) :
  String.length (map_chars f s) = String.length s.
Proof. induction s as [| c s IH]; simpl; congruence. Qed.

Lemma append_length (s1 s2 : string) :
  String.length (s1 ++ s2)%string = String.length s1 + String.length s2.
Proof. induction s1 as [| c s1 IH]; simpl; congruence. Qed.

Lemma safe_name_chars (place_name : string) (c : ascii) :
  In c (list_ascii_of_string (safe_name place_name)) ->
  c <> " "%char /\ is_upper c = false.
Proof.
  unfold safe_name. induction place_name as [| a s IH]; simpl; [tauto | ].
  intros [Heq | Hin]; [ | exact (IH Hin)].
  subst c. destruct (safe_char_facts a) as (Hs & Hu & _).
  split; [ | exact Hu].
  intros Habs. rewrite Habs in Hs. discriminate.
Qed.

(** X16.  The script goes on with a place name and a path exactly when the
    command line holds at least two arguments after the name of the script;
    it takes the first two and ignores the others.  With fewer it ends with
    exit status 1. *)
Theorem read_argv_cases (argv : list string) :
  (read_argv argv = UsageExit 1 <-> length argv < 3)
  /\ (forall place_name land_shp_path,
        read_argv argv = Started place_name land_shp_path
        <-> exists prog rest,
              argv = prog :: place_name :: land_shp_path :: rest).
Proof.
  unfold read_argv. split.
  - destruct (Nat.ltb_spec (length argv) 3); split; intros;
      try reflexivity; try lia; discriminate.
  - intros place_name land_shp_path.
    destruct argv as [| prog [| a1 [| a2 rest]]]; simpl.
    + split; [discriminate | intros (p & r & H); discriminate].
    + split; [discriminate | intros (p & r & H); discriminate].
    + split; [discriminate | intros (p & r & H); discriminate].
    + split.
      * intros H. inversion H. eauto.
      * intros (p & r & H). inversion H. reflexivity.
Qed.

(** X17.  For an ASCII place name, the name of the saved file is as long as
    the place name plus the eighteen characters of [land_clamped_] and
    [.html]; the part made from the place name holds no space and no capital
    letter, and making it again from itself changes nothing. *)
Theorem out_html_shape (place_name : string) :
  ascii_name place_name = true ->
  String.length (out_html place_name) = String.length place_name + 18
  /\ (forall c, In c (list_ascii_of_string (safe_name place_name)) ->
                c <> " "%char /\ is_upper c = false)
  /\ safe_name (safe_name place_name) = safe_name place_name.
Proof.
  intros _. split; [ | split].
  - unfold out_html. rewrite !append_length. unfold safe_name.
    rewrite !map_chars_length. simpl. lia.
  - apply safe_name_chars.
  - unfold safe_name. induction place_name as [| a s IH]; [reflexivity | ].
    simpl. destruct (safe_char_facts a) as (_ & _ & Hi).
    rewrite Hi. f_equal. exact IH.
Qed.

(** X17 at an input: the place of the usage line. *)
Lemma out_html_shape_witness :
  out_html "New York" = "land_clamped_new_york.html"%string
  /\ String.length (out_html "New York") = 26.
Proof.
  split; [reflexivity | ].
  apply (out_html_shape "New York"). reflexivity.
Defined.

(** ** Strictness of [sample.py] *)

Section StrictFacts.
Context {N : Num} {S : Shapely}.

Lemma first_relation_skips (pre rest : list element) :
  Forall typed_other pre ->
  Sample.first_relation (pre ++ rest) = Sample.first_relation rest.
Proof.
  intros Hpre. induction Hpre as [| el pre' (t & Ht & Hne) _ IH];
    [reflexivity | ].
  simpl. rewrite Ht. simpl. rewrite Hne. exact IH.
Qed.
End StrictFacts.

(** X18.  When the answer of the boundary service holds typed elements but
    no relation, [land_only_boundary] of [sample.py] ends with the attribute
    error of [None.bounds], raised on the first line of [fetch_water]: the
    water service has no part in the outcome. *)
Theorem no_relation_ends_in_attribute_error {N : Num} {S : Shapely}
    (els : list element) (service : num * num * num * num -> response) :
  Forall typed_other els ->
  Sample.fetch_place_boundary {| elements := Some els |} = Ok None
  /\ Sample.land_only_boundary {| elements := Some els |} service
     = Raise (AttributeError "bounds").
Proof.
  intros Hall.
  assert (H : Sample.fetch_place_boundary {| elements := Some els |} = Ok None).
  { unfold Sample.fetch_place_boundary. simpl.
    rewrite <- (app_nil_r els). rewrite (first_relation_skips [] Hall).
    reflexivity. }
  split; [exact H | ].
  unfold Sample.land_only_boundary. rewrite H. reflexivity.
Qed.

(** X18 at a run: the answer holds a way only. *)
Lemma no_relation_ends_in_attribute_error_witness :
  Sample.land_only_boundary (S := Grid.lib)
    (Grid.answer [Grid.way Grid.unit_square])
    (fun _ => Grid.answer [Grid.way Grid.unit_square])
  = Raise (AttributeError "bounds").
Proof.
  apply (no_relation_ends_in_attribute_error (S := Grid.lib)
           (els := [Grid.way Grid.unit_square])).
  repeat constructor. exists "way"%string. split; reflexivity.
Defined.

(** X19.  [fetch_place_boundary] of [sample.py] indexes its keys without a
    guard.  After any run of typed elements that are not relations, an
    element without a type raises the key error of [type], a relation without
    members that of [members]; and an answer without [elements] raises that
    of [elements]. *)
Theorem sample_missing_keys {N : Num} {S : Shapely}
    (pre post : list element) (el : element) :
  Forall typed_other pre ->
  (el_type el = None ->
   Sample.fetch_place_boundary {| elements := Some (pre ++ el :: post) |}
   = Raise (KeyError "type"))
  /\ (el_type el = Some "relation"%string -> el_members el = None ->
      Sample.fetch_place_boundary {| elements := Some (pre ++ el :: post) |}
      = Raise (KeyError "members"))
  /\ Sample.fetch_place_boundary {| elements := None |}
     = Raise (KeyError "elements").
Proof.
  intros Hpre. unfold Sample.fetch_place_boundary. simpl.
  rewrite (first_relation_skips (el :: post) Hpre). simpl.
  split; [ | split; [ | reflexivity]].
  - intros Ht. rewrite Ht. reflexivity.
  - intros Ht Hm. rewrite Ht, Hm. reflexivity.
Qed.

(** X19 at an input: a way, then a relation without members. *)
Lemma sample_missing_keys_witness :
  Sample.fetch_place_boundary (S := Grid.lib)
    (Grid.answer [Grid.way Grid.unit_square;
                  {| el_type := Some "relation"%string;
                     el_members := None;
                     el_geometry := Some Grid.unit_square |}])
  = Raise (KeyError "members").
Proof.
  destruct (sample_missing_keys (S := Grid.lib)
              (pre := [Grid.way Grid.unit_square]) []
              {| el_type := Some "relation"%string;
                 el_members := None;
                 el_geometry := Some Grid.unit_square |}) as (_ & H & _).
  - repeat constructor. exists "way"%string. split; reflexivity.
  - apply H; reflexivity.
Defined.

(** X20.  The polygon constructor is not guarded in [fetch_place_boundary]
    of [sample.py]: when it raises on the coordinates of the first relation,
    the exception leaves [land_only_boundary], whatever follows in the answer
    and whatever the water service holds. *)
Theorem sample_constructor_failure_escapes {N : Num} {S : Shapely}
    (pre post : list element) (rel : element) (members : list member)
    (coords : list coord) (e : exn)
    (service : num * num * num * num -> response) :
  Forall typed_other pre ->
  el_type rel = Some "relation"%string ->
  el_members rel = Some members ->
  Sample.member_coords members = Ok coords ->
  Polygon coords = Raise e ->
  Sample.land_only_boundary {| elements := Some (pre ++ rel :: post) |} service
  = Raise e.
Proof.
  intros Hpre Ht Hm Hc Hp.
  unfold Sample.land_only_boundary, Sample.fetch_place_boundary. simpl.
  rewrite (first_relation_skips (rel :: post) Hpre). simpl.
  rewrite Ht, Hm. simpl. rewrite Hc. simpl. rewrite Hp. reflexivity.
Qed.

(** X20 at a run: the member way of the relation has two points. *)
Lemma sample_constructor_failure_escapes_witness :
  Sample.land_only_boundary (S := Grid.lib)
    (Grid.answer [Grid.relation_of_ways [[Grid.pt 0 0; Grid.pt 1 1]]])
    (fun _ => Grid.answer [])
  = Raise ValueError.
Proof.
  apply (sample_constructor_failure_escapes (S := Grid.lib) (pre := []) []
           (Grid.relation_of_ways [[Grid.pt 0 0; Grid.pt 1 1]])
           (members := [{| m_type := Some "way"%string;
                           m_geometry := Some [Grid.pt 0 0; Grid.pt 1 1] |}])
           (coords := [(0, 0); (1, 1)]%Z) (e := ValueError)
           (fun _ => Grid.answer []));
    try reflexivity.
  constructor.
Defined.

(** ** The two pipelines on well-behaved data *)

(** X21.  The main line of [sample.py]: with a boundary and a water union
    that are valid and not empty, [land_only_boundary] returns the difference
    of the fetched boundary and the union of the admitted water polygons,
    neither of them buffered. *)
Theorem land_only_boundary_difference {N : Num} {S : Shapely}
    (data : response) (service : num * num * num * num -> response)
    (els : list element) (b w land : geom) :
  Sample.fetch_place_boundary data = Ok (Some b) ->
  elements (service (bounds b)) = Some els ->
  flat_map (appended Sample.water_element) els <> [] ->
  unary_union (flat_map (appended Sample.water_element) els) = Ok w ->
  is_empty b = false -> is_valid b = true ->
  is_empty w = false -> is_valid w = true ->
  difference b w = Ok land ->
  Sample.land_only_boundary data service = Ok (Some land).
Proof.
  intros Hb Hels Hne Hu Heb Hvb Hew Hvw Hd.
  unfold Sample.land_only_boundary. rewrite Hb. cbn [bind].
  unfold Sample.fetch_water. rewrite Hels. cbn [bind index].
  rewrite (collect_flat_map Sample.water_element els).
  2: { intros el. destruct (water_element_total el) as (polys & H & _). eauto. }
  cbn [bind]. unfold Sample.union_or_none.
  destruct (flat_map (appended Sample.water_element) els) as [| p polys];
    [congruence | ].
  rewrite Hu. cbn [bind]. unfold Sample.difference_step, truthy.
  rewrite Heb, Hew. simpl.
  rewrite (repair_valid _ Hvb), (repair_valid _ Hvw). simpl.
  rewrite Hd. reflexivity.
Qed.

(** X21 at a run: a two-by-two boundary, the unit square as water. *)
Lemma land_only_boundary_difference_witness :
  Sample.land_only_boundary (S := Grid.lib)
    (Grid.answer [Grid.relation_of_ways [Grid.rect_ring 0 0 2 2]])
    (fun _ => Grid.answer [Grid.way Grid.unit_square])
  = Ok (Some (Grid.Region [(0, 1); (1, 0); (1, 1)]%Z)).
Proof.
  apply (land_only_boundary_difference (S := Grid.lib)
           (Grid.answer [Grid.relation_of_ways [Grid.rect_ring 0 0 2 2]])
           (fun _ => Grid.answer [Grid.way Grid.unit_square])
           (els := [Grid.way Grid.unit_square])
           (b := Grid.grid_box 0 0 2 2) (w := Grid.grid_box 0 0 1 1));
    try reflexivity.
  discriminate.
Defined.

(** X22.  The main line of [show_land_outline.py]: when the filtered subset
    is not empty, its union succeeds and is not empty, the intersection of
    the boundary with that union succeeds and is valid, and the map can be
    built and saved, [main] prints no fallback message and ends with the
    boundary and that intersection as its two layers. *)
Theorem main_intersection {N : Num} {S : Shapely}
    (place_name : string) (land_gdf : ShowLandOutline.GeoDataFrame)
    (data : response) (fetched B u clamped : geom) :
  ShowLandOutline.fetch_place_boundary place_name data = Ok fetched ->
  repair fetched = Ok B ->
  ShowLandOutline.prefilter B
    (ShowLandOutline.geometry (ShowLandOutline.reprojected land_gdf)) <> [] ->
  unary_union
    (ShowLandOutline.prefilter B
       (ShowLandOutline.geometry (ShowLandOutline.reprojected land_gdf)))
  = Ok u ->
  is_empty u = false ->
  intersection B u = Ok clamped ->
  is_valid clamped = true ->
  save_map place_name B clamped = Ok tt ->
  ShowLandOutline.main place_name land_gdf data
  = (MsgLoading :: ShowLandOutline.crs_messages land_gdf
       ++ [MsgFetching place_name; MsgFiltering; MsgIntersecting; MsgSaved],
     Ok (B, clamped)).
Proof.
  intros Hf Hr Hne Hu He Hi Hv Hsave.
  rewrite main_stages, Hf, Hr. cbv zeta.
  set (land_subset := ShowLandOutline.prefilter B _) in *.
  assert (Hc : ShowLandOutline.clamp_stage B land_subset
               = ([], Ok clamped)).
  { unfold ShowLandOutline.clamp_stage, ShowLandOutline.intersection_step.
    destruct land_subset as [| g rest]; [congruence | ].
    change (0 <? length (g :: rest)) with true. cbv iota.
    rewrite Hu. cbn [bind]. unfold truthy. rewrite He. simpl.
    rewrite Hi. reflexivity. }
  rewrite Hc, (repair_valid _ Hv), Hsave.
  destruct land_subset as [| g rest]; [congruence | ].
  simpl. repeat (rewrite <- app_assoc; simpl). reflexivity.
Qed.

(** X22 at a run: a two-by-two boundary, one land row with a cell inside it
    and a cell far outside. *)
Lemma main_intersection_witness :
  ShowLandOutline.main (S := Grid.lib) "Monaco"
    (Grid.frame Grid.lib [Grid.Region [(0, 0); (5, 5)]%Z])
    (Grid.answer [Grid.relation_of_ways [Grid.rect_ring 0 0 2 2]])
  = ([MsgLoading; MsgFetching "Monaco"; MsgFiltering; MsgIntersecting;
      MsgSaved],
     Ok (Grid.grid_box 0 0 2 2, Grid.Region [(0, 0)%Z])).
Proof.
  apply (main_intersection (S := Grid.lib) "Monaco"
           (Grid.frame Grid.lib [Grid.Region [(0, 0); (5, 5)]%Z])
           (Grid.answer [Grid.relation_of_ways [Grid.rect_ring 0 0 2 2]])
           (fetched := Grid.grid_box 0 0 2 2) (B := Grid.grid_box 0 0 2 2)
           (u := Grid.Region [(0, 0); (5, 5)]%Z)
           (clamped := Grid.Region [(0, 0)%Z]));
    try reflexivity.
  discriminate.
Defined.
